(** * Jira MCP server: the tool dispatcher and the tracker client

    A shallow embedding of [mcp_server.py].  Python objects that flow
    through the program (tool arguments, request bodies, tracker
    responses) are JSON values; dictionaries are association lists in
    insertion order; the client's HTTP traffic is a log of requests kept
    in an explicit world; exceptions are values of an error monad. *)

From Stdlib Require Import ZArith String Ascii List Bool Lia.
From Stdlib Require Import DecimalString.
Import ListNotations.
Open Scope list_scope.
Open Scope string_scope.

(** ** Python values *)

(** The objects the program handles: [None], [bool], [int], [str], [list]
    and [dict] with string keys.  A [str] is a sequence of code points
    below 256; a [dict] keeps its items in insertion order. *)
#[local] Unset Elimination Schemes.

Inductive json : Type :=
| JNull
| JBool (b : bool)
| JInt (z : Z)
| JStr (s : string)
| JList (l : list json)
| JDict (d : list (string * json)).

#[local] Set Elimination Schemes.

Definition dict : Type := list (string * json).

Section JsonInduction.
Variable P : json -> Prop.
Hypothesis Hnull : P JNull.
Hypothesis Hbool : forall b, P (JBool b).
Hypothesis Hint : forall z, P (JInt z).
Hypothesis Hstr : forall s, P (JStr s).
Hypothesis Hlist : forall l, Forall P l -> P (JList l).
Hypothesis Hdict : forall d, Forall (fun kv => P (snd kv)) d -> P (JDict d).

Fixpoint json_ind (v : json) : P v :=
  match v with
  | JNull => Hnull
  | JBool b => Hbool b
  | JInt z => Hint z
  | JStr s => Hstr s
  | JList l =>
      Hlist l ((fix go (l : list json) : Forall P l :=
                  match l with
                  | [] => Forall_nil P
                  | x :: r => Forall_cons x (json_ind x) (go r)
                  end) l)
  | JDict d =>
      Hdict d ((fix go (d : dict) : Forall (fun kv => P (snd kv)) d :=
                  match d with
                  | [] => Forall_nil _
                  | kv :: r =>
                      Forall_cons (P := fun kv => P (snd kv)) kv
                        (json_ind (snd kv)) (go r)
                  end) d)
  end.
End JsonInduction.

(** ** Exceptions *)

Inductive exc_class :=
| KeyError | ValueError | TypeError | AttributeError | UnicodeEncodeError
| ClientError | ClientResponseError | ClientConnectionError | ContentTypeError
| TimeoutError
| CancelledError.

(** [exn_str] is what [str(e)] gives. *)
Record exn := Exn { exn_class : exc_class; exn_str : string }.

(** [except aiohttp.ClientError]: the class and its subclasses. *)
Definition is_ClientError (c : exc_class) : bool :=
  match c with
  | ClientError | ClientResponseError | ClientConnectionError
  | ContentTypeError => true
  | _ => false
  end.

(** [except Exception]: every class above except [CancelledError], which
    derives from [BaseException] only. *)
Definition is_Exception (c : exc_class) : bool :=
  match c with
  | CancelledError => false
  | _ => true
  end.

Definition result (A : Type) : Type := (exn + A)%type.

Definition rbind {A B} (r : result A) (k : A -> result B) : result B :=
  match r with
  | inl e => inl e
  | inr a => k a
  end.

Declare Scope result_scope.
Delimit Scope result_scope with result.
Notation "x <- c ;; k" := (rbind c (fun x => k))
  (at level 61, c at next level, right associativity) : result_scope.

(** ** Python built-ins *)

Module Py.

Definition dquote : ascii := "034"%char.

Definition digit_char (n : nat) : ascii :=
  ascii_of_nat (if Nat.ltb n 10 then 48 + n else 87 + n).

(** Two lower-case hexadecimal digits of a code point. *)
Definition hex2 (c : ascii) : string :=
  let n := nat_of_ascii c in
  String (digit_char (Nat.div n 16)) (String (digit_char (Nat.modulo n 16)) "").

(** [str(int)]. *)
Definition str_int (z : Z) : string := NilZero.string_of_int (Z.to_int z).

(** [str.isprintable] on one code point below 256. *)
Definition isprintable (c : ascii) : bool :=
  let n := nat_of_ascii c in
  (Nat.leb 32 n && Nat.ltb n 127) || (Nat.leb 161 n && negb (Nat.eqb n 173)).

Fixpoint contains_char (q : ascii) (s : string) : bool :=
  match s with
  | EmptyString => false
  | String c r => Ascii.eqb c q || contains_char q r
  end.

Definition repr_char (quote c : ascii) : string :=
  if Ascii.eqb c quote then String "\" (String c "")
  else if Ascii.eqb c "\" then "\\"
  else if Ascii.eqb c "009" then "\t"
  else if Ascii.eqb c "010" then "\n"
  else if Ascii.eqb c "013" then "\r"
  else if isprintable c then String c ""
  else "\x" ++ hex2 c.

Fixpoint repr_chars (quote : ascii) (s : string) : string :=
  match s with
  | EmptyString => ""
  | String c r => repr_char quote c ++ repr_chars quote r
  end.

(** [repr(str)]: single quotes, unless the text has a single quote and no
    double quote. *)
Definition repr_str (s : string) : string :=
  let quote : ascii :=
    if contains_char "'" s && negb (contains_char dquote s) then dquote
    else "'"%char in
  String quote (repr_chars quote s ++ String quote "").

Fixpoint join (sep : string) (l : list string) : string :=
  match l with
  | [] => ""
  | [x] => x
  | x :: r => x ++ sep ++ join sep r
  end.

(** [repr(v)]. *)
Fixpoint repr (v : json) : string :=
  match v with
  | JNull => "None"
  | JBool true => "True"
  | JBool false => "False"
  | JInt z => str_int z
  | JStr s => repr_str s
  | JList l => "[" ++ join ", " (map repr l) ++ "]"
  | JDict d =>
      "{" ++ join ", " (map (fun kv => repr_str (fst kv) ++ ": " ++ repr (snd kv)) d)
          ++ "}"
  end.

(** [str(v)], which is what an f-string field [{v}] inserts. *)
Definition str (v : json) : string :=
  match v with
  | JStr s => s
  | _ => repr v
  end.

(** The name [type(v).__name__] used in the interpreter's messages. *)
Definition type_name (v : json) : string :=
  match v with
  | JNull => "NoneType"
  | JBool _ => "bool"
  | JInt _ => "int"
  | JStr _ => "str"
  | JList _ => "list"
  | JDict _ => "dict"
  end.

(** Truth value of an object: [bool(v)]. *)
Definition truthy (v : json) : bool :=
  match v with
  | JNull => false
  | JBool b => b
  | JInt z => negb (Z.eqb z 0)
  | JStr s => negb (String.eqb s "")
  | JList l => match l with [] => false | _ => true end
  | JDict d => match d with [] => false | _ => true end
  end.

(** *** Dictionaries *)

Fixpoint lookup (d : dict) (k : string) : option json :=
  match d with
  | [] => None
  | (k', v) :: r => if String.eqb k' k then Some v else lookup r k
  end.

(** [k in d]. *)
Definition contains (d : dict) (k : string) : bool :=
  match lookup d k with
  | Some _ => true
  | None => false
  end.

Definition keys (d : dict) : list string := map fst d.

(** [d[k]] on a dictionary. *)
Definition dict_getitem (d : dict) (k : string) : result json :=
  match lookup d k with
  | Some v => inr v
  | None => inl (Exn KeyError (repr_str k))
  end.

(** [d.get(k, default)] on a dictionary. *)
Definition dict_get (d : dict) (k : string) (default : json) : json :=
  match lookup d k with
  | Some v => v
  | None => default
  end.

(** [d[k] = v]: replaces the value in place when the key is there, and
    adds the item at the end otherwise. *)
Fixpoint setitem (d : dict) (k : string) (v : json) : dict :=
  match d with
  | [] => [(k, v)]
  | (k', v') :: r =>
      if String.eqb k' k then (k', v) :: r else (k', v') :: setitem r k v
  end.

(** *** Operations on objects of unknown type *)

(** [v[k]] with a string subscript. *)
Definition getitem (v : json) (k : string) : result json :=
  match v with
  | JDict d => dict_getitem d k
  | JList _ =>
      inl (Exn TypeError "list indices must be integers or slices, not str")
  | JStr _ =>
      inl (Exn TypeError "string indices must be integers, not 'str'")
  | _ =>
      inl (Exn TypeError ("'" ++ type_name v ++ "' object is not subscriptable"))
  end.

(** [v[k1][k2] = x] where [v] is a dictionary of dictionaries. *)
Definition setitem_in (v : json) (k1 k2 : string) (x : json) : result json :=
  match v with
  | JDict d =>
      match lookup d k1 with
      | Some (JDict inner) => inr (JDict (setitem d k1 (JDict (setitem inner k2 x))))
      | Some other =>
          inl (Exn TypeError
                 ("'" ++ type_name other ++ "' object does not support item assignment"))
      | None => inl (Exn KeyError (repr_str k1))
      end
  | _ => inl (Exn TypeError ("'" ++ type_name v ++ "' object is not subscriptable"))
  end.

(** [v.get(k, default)]: only a dictionary has the method. *)
Definition get (v : json) (k : string) (default : json) : result json :=
  match v with
  | JDict d => inr (dict_get d k default)
  | _ =>
      inl (Exn AttributeError
             ("'" ++ type_name v ++ "' object has no attribute 'get'"))
  end.

Fixpoint chars (s : string) : list json :=
  match s with
  | EmptyString => []
  | String c r => JStr (String c "") :: chars r
  end.

(** The items a [for] loop or a comprehension visits. *)
Definition iter (v : json) : result (list json) :=
  match v with
  | JList l => inr l
  | JDict d => inr (map JStr (keys d))
  | JStr s => inr (chars s)
  | _ => inl (Exn TypeError ("'" ++ type_name v ++ "' object is not iterable"))
  end.

Definition lower_char (c : ascii) : ascii :=
  let n := nat_of_ascii c in
  if (Nat.leb 65 n && Nat.leb n 90)
     || (Nat.leb 192 n && Nat.leb n 222 && negb (Nat.eqb n 215))
  then ascii_of_nat (n + 32) else c.

Fixpoint lower_str (s : string) : string :=
  match s with
  | EmptyString => ""
  | String c r => String (lower_char c) (lower_str r)
  end.

(** [v.lower()]: only a [str] has the method. *)
Definition lower (v : json) : result string :=
  match v with
  | JStr s => inr (lower_str s)
  | _ =>
      inl (Exn AttributeError
             ("'" ++ type_name v ++ "' object has no attribute 'lower'"))
  end.

Fixpoint join_items (sep : string) (n : nat) (items : list json) : result string :=
  match items with
  | [] => inr ""
  | x :: r =>
      match x with
      | JStr s =>
          match r with
          | [] => inr s
          | _ => (rest <- join_items sep (S n) r ;; inr (s ++ sep ++ rest))%result
          end
      | _ =>
          inl (Exn TypeError
                 ("sequence item " ++ NilZero.string_of_uint (Nat.to_uint n)
                    ++ ": expected str instance, " ++ type_name x ++ " found"))
      end
  end.

(** [sep.join(v)]. *)
Definition str_join (sep : string) (v : json) : result string :=
  match v with
  | JList l => join_items sep 0 l
  | JDict d => inr (join sep (keys d))
  | JStr s => join_items sep 0 (chars s)
  | _ => inl (Exn TypeError "can only join an iterable")
  end.

End Py.

(** ** The [json] module: [dumps(obj, indent=2)] *)

Module Json.

Import Py.

(** *** Encoding *)

(** One character of a string literal, with [ensure_ascii] on: the quote,
    the backslash and the five short escapes, then [\u00XX] for anything
    outside [' '..'~']. *)
Definition encode_char (c : ascii) : string :=
  if Ascii.eqb c dquote then String "\" (String dquote "")
  else if Ascii.eqb c "\" then "\\"
  else if Ascii.eqb c "010" then "\n"
  else if Ascii.eqb c "013" then "\r"
  else if Ascii.eqb c "009" then "\t"
  else if Ascii.eqb c "012" then "\f"
  else if Ascii.eqb c "008" then "\b"
  else if Nat.leb 32 (nat_of_ascii c) && Nat.leb (nat_of_ascii c) 126
       then String c ""
  else "\u00" ++ hex2 c.

Fixpoint encode_chars (s : string) : string :=
  match s with
  | EmptyString => ""
  | String c r => encode_char c ++ encode_chars r
  end.

Definition encode_str (s : string) : string :=
  String dquote (encode_chars s ++ String dquote "").

Fixpoint spaces (n : nat) : string :=
  match n with
  | O => ""
  | S m => String " " (spaces m)
  end.

(** ['\n' + indent * level] with an indent of two spaces. *)
Definition newline_indent (level : nat) : string :=
  String "010" (spaces (2 * level)).

(** The text of [v] when it sits at nesting depth [level]. *)
Fixpoint encode (level : nat) (v : json) : string :=
  match v with
  | JNull => "null"
  | JBool true => "true"
  | JBool false => "false"
  | JInt z => str_int z
  | JStr s => encode_str s
  | JList [] => "[]"
  | JList l =>
      "[" ++ newline_indent (S level)
          ++ join ("," ++ newline_indent (S level)) (map (encode (S level)) l)
          ++ newline_indent level ++ "]"
  | JDict [] => "{}"
  | JDict d =>
      "{" ++ newline_indent (S level)
          ++ join ("," ++ newline_indent (S level))
               (map (fun kv : string * json =>
                       let (k, x) := kv in
                       encode_str k ++ ": " ++ encode (S level) x) d)
          ++ newline_indent level ++ "}"
  end.

(** [json.dumps(v, indent=2)]. *)
Definition dumps (v : json) : string := encode 0 v.

End Json.

(** ** Configuration, session and the world around the client *)

Record JIRAConfig := {
  base_url : string;
  username : string;
  api_token : string;
  default_project_key : string
}.

(** [aiohttp.ClientSession(headers=..., timeout=ClientTimeout(total=...))]. *)
Record ClientSession := {
  headers : list (string * string);
  timeout_total : Z;
  closed : bool
}.

(** The two attributes of a [JIRAMCPServer] object. *)
Record JIRAMCPServer := {
  config : option JIRAConfig;
  session : option ClientSession
}.

(** [urljoin(base, reference)], kept as its two arguments. *)
Record url := urljoin { url_base : string; url_reference : string }.

(** One call [session.request(method, url, **kwargs)]. *)
Record request := {
  req_method : string;
  req_url : url;
  req_kwargs : dict
}.

Inductive log_level := INFO | ERROR.

(** The world a call runs in: the global [jira_client], the remote tracker
    (what it answers to a request, given the requests made before: the
    parsed JSON body, or the exception that [session.request],
    [raise_for_status] or [response.json] raises), the requests made so
    far and the lines logged so far. *)
Record world := {
  jira_client : JIRAMCPServer;
  tracker : list request -> request -> result json;
  sent : list request;
  logged : list (log_level * string)
}.

(** A computation that reads and changes the world and returns a value or
    raises an exception. *)
Definition M (A : Type) : Type := world -> result A * world.

Definition ret {A} (a : A) : M A := fun w => (inr a, w).

Definition raise {A} (e : exn) : M A := fun w => (inl e, w).

Definition bind {A B} (c : M A) (k : A -> M B) : M B :=
  fun w =>
    match c w with
    | (inr a, w') => k a w'
    | (inl e, w') => (inl e, w')
    end.

(** A pure step that may raise. *)
Definition lift {A} (r : result A) : M A := fun w => (r, w).

(** [try: body / except <classes>: handler]. *)
Definition try_except {A} (body : M A) (catches : exc_class -> bool)
  (handler : exn -> M A) : M A :=
  fun w =>
    match body w with
    | (inl e, w') => if catches (exn_class e) then handler e w' else (inl e, w')
    | (inr a, w') => (inr a, w')
    end.

Declare Scope world_scope.
Delimit Scope world_scope with world.
Notation "x <- c ;; k" := (bind c (fun x => k))
  (at level 61, c at next level, right associativity) : world_scope.
Notation "c ;;; k" := (bind c (fun _ => k))
  (at level 61, right associativity) : world_scope.

(** The world after one more line in the log. *)
Definition with_line (level : log_level) (line : string) (w : world) : world :=
  {| jira_client := jira_client w; tracker := tracker w; sent := sent w;
     logged := logged w ++ [(level, line)] |}.

(** The world after one more request. *)
Definition with_request (rq : request) (w : world) : world :=
  {| jira_client := jira_client w; tracker := tracker w;
     sent := sent w ++ [rq]; logged := logged w |}.

Definition logger (level : log_level) (line : string) : M unit :=
  fun w => (inr tt, with_line level line w).

(** The call that reaches the network: the request is recorded and the
    tracker answers. *)
Definition session_request (method : string) (u : url) (kwargs : dict) : M json :=
  fun w =>
    let rq := {| req_method := method; req_url := u; req_kwargs := kwargs |} in
    (tracker w (sent w) rq, with_request rq w).

Definition get_jira_client : M JIRAMCPServer := fun w => (inr (jira_client w), w).

Definition set_jira_client (c : JIRAMCPServer) : M unit :=
  fun w =>
    (inr tt,
     {| jira_client := c; tracker := tracker w; sent := sent w; logged := logged w |}).

(** ** Base64, for the authorization header *)

Module Base64.

Definition alphabet : string :=
  "ABCDEFGHIJKLMNOPQRSTUVWXYZabcdefghijklmnopqrstuvwxyz0123456789+/".

Definition sextet (n : nat) : ascii :=
  match String.get n alphabet with
  | Some c => c
  | None => "="%char
  end.

(** [base64.b64encode] on a byte string, as text. *)
Fixpoint b64encode (s : string) : string :=
  match s with
  | EmptyString => ""
  | String a EmptyString =>
      let x := nat_of_ascii a in
      String (sextet (Nat.div x 4))
        (String (sextet (Nat.modulo x 4 * 16)) "==")
  | String a (String b EmptyString) =>
      let x := nat_of_ascii a in
      let y := nat_of_ascii b in
      String (sextet (Nat.div x 4))
        (String (sextet (Nat.modulo x 4 * 16 + Nat.div y 16))
           (String (sextet (Nat.modulo y 16 * 4)) "="))
  | String a (String b (String c r)) =>
      let x := nat_of_ascii a in
      let y := nat_of_ascii b in
      let z := nat_of_ascii c in
      String (sextet (Nat.div x 4))
        (String (sextet (Nat.modulo x 4 * 16 + Nat.div y 16))
           (String (sextet (Nat.modulo y 16 * 4 + Nat.div z 64))
              (String (sextet (Nat.modulo z 64)) (b64encode r))))
  end.

End Base64.

(** ** The tracker client: class [JIRAMCPServer] *)

Module Client.

Import Py.
Local Open Scope world_scope.

(** [s.encode('ascii')] *)
Fixpoint encode_ascii (s : string) : result string :=
  match s with
  | EmptyString => inr ""
  | String c r =>
      if Nat.ltb (nat_of_ascii c) 128 then
        match encode_ascii r with
        | inr t => inr (String c t)
        | inl e => inl e
        end
      else inl (Exn UnicodeEncodeError "'ascii' codec can't encode character")
  end.

Definition initialize (cfg : JIRAConfig) : M unit :=
  self <- get_jira_client ;;
  let self := {| config := Some cfg; session := session self |} in
  set_jira_client self ;;;
  let auth_string := username cfg ++ ":" ++ api_token cfg in
  auth_bytes <- lift (encode_ascii auth_string) ;;
  let auth_b64 := Base64.b64encode auth_bytes in
  let hdrs := [("Authorization", "Basic " ++ auth_b64);
               ("Content-Type", "application/json");
               ("Accept", "application/json")] in
  set_jira_client
    {| config := config self;
       session := Some {| headers := hdrs; timeout_total := 30; closed := false |} |} ;;;
  logger INFO ("Initialized JIRA client for " ++ base_url cfg).

Definition close : M unit :=
  self <- get_jira_client ;;
  match session self with
  | Some s =>
      set_jira_client
        {| config := config self;
           session := Some {| headers := headers s;
                              timeout_total := timeout_total s;
                              closed := true |} |}
  | None => ret tt
  end.

Definition _make_request (method endpoint : string) (kwargs : dict) : M json :=
  self <- get_jira_client ;;
  match session self, config self with
  | Some _, Some cfg =>
      let u := urljoin (base_url cfg) ("/rest/api/3/" ++ endpoint) in
      try_except (session_request method u kwargs) is_ClientError
        (fun e =>
           logger ERROR ("JIRA API request failed: " ++ exn_str e) ;;;
           raise e)
  | _, _ => raise (Exn ValueError "JIRA client not initialized")
  end.

Definition get_projects : M json :=
  _make_request "GET" "project" [].

Definition get_project_details (project_key : json) : M json :=
  _make_request "GET" ("project/" ++ str project_key) [].

Definition search_issues (jql fields max_results : json) : M json :=
  fields_param <- lift (if truthy fields
                        then rbind (str_join "," fields) (fun s => inr (JStr s))
                        else inr (JStr "*all")) ;;
  let params := [("jql", jql); ("maxResults", max_results);
                 ("fields", fields_param)] in
  _make_request "GET" "search" [("params", JDict params)].

Definition get_issue (issue_key : json) : M json :=
  _make_request "GET" ("issue/" ++ str issue_key) [].

Definition create_issue (issue_data : json) : M json :=
  _make_request "POST" "issue" [("json", issue_data)].

Definition update_issue (issue_key update_data : json) : M unit :=
  _make_request "PUT" ("issue/" ++ str issue_key) [("json", update_data)] ;;;
  ret tt.

Definition transition_issue (issue_key transition_id : json) : M unit :=
  let transition_data := JDict [("transition", JDict [("id", transition_id)])] in
  _make_request "POST" ("issue/" ++ str issue_key ++ "/transitions")
    [("json", transition_data)] ;;;
  ret tt.

Definition get_issue_transitions (issue_key : json) : M json :=
  result <- _make_request "GET" ("issue/" ++ str issue_key ++ "/transitions") [] ;;
  lift (get result "transitions" (JList [])).

Definition add_comment (issue_key comment : json) : M json :=
  let comment_data :=
    JDict [("body",
            JDict [("type", JStr "doc");
                   ("version", JInt 1);
                   ("content",
                    JList [JDict [("type", JStr "paragraph");
                                  ("content",
                                   JList [JDict [("text", comment);
                                                 ("type", JStr "text")]])]])])] in
  _make_request "POST" ("issue/" ++ str issue_key ++ "/comment")
    [("json", comment_data)].

Definition get_issue_types (project_key : json) : M json :=
  project <- get_project_details project_key ;;
  lift (get project "issueTypes" (JList [])).

Definition get_epics (project_key : json) : M json :=
  let jql := "project = " ++ String dquote (str project_key)
               ++ String dquote " AND issuetype = Epic ORDER BY created DESC" in
  result <- search_issues (JStr jql) JNull (JInt 50) ;;
  lift (get result "issues" (JList [])).

Definition link_issue_to_epic (issue_key epic_key : json) : M unit :=
  let update_data := JDict [("fields", JDict [("parent", JDict [("key", epic_key)])])] in
  update_issue issue_key update_data.

End Client.

(** ** The tool dispatcher *)

Record TextContent := { type : string; text : string }.

Record Tool := { name : string; description : string; inputSchema : json }.

Module Dispatcher.

Import Py.

(** A string property of an input schema, as the catalog writes each one. *)
Definition string_property (key about : string) : string * json :=
  (key, JDict [("type", JStr "string"); ("description", JStr about)]).

Definition string_list_property (key about : string) : string * json :=
  (key, JDict [("type", JStr "array");
               ("items", JDict [("type", JStr "string")]);
               ("description", JStr about)]).

Definition object_schema (properties : dict) (required : list string) : json :=
  JDict [("type", JStr "object");
         ("properties", JDict properties);
         ("required", JList (map JStr required))].

(** [handle_list_tools]: the catalog. *)
Definition handle_list_tools : list Tool :=
  [ {| name := "jira_get_projects";
       description := "Get all accessible JIRA projects";
       inputSchema := object_schema [] [] |};
    {| name := "jira_get_project_details";
       description := "Get detailed information about a specific JIRA project";
       inputSchema :=
         object_schema
           [string_property "project_key" "The project key (e.g., 'PROJ')"]
           ["project_key"] |};
    {| name := "jira_search_issues";
       description := "Search for issues using JQL (JIRA Query Language)";
       inputSchema :=
         object_schema
           [string_property "jql"
              ("JQL query string (e.g., 'project = PROJ AND status = "
                 ++ String dquote "In Progress" ++ String dquote "')");
            string_list_property "fields" "List of fields to return (optional)";
            ("max_results",
             JDict [("type", JStr "integer");
                    ("description",
                     JStr "Maximum number of results to return (default: 50)");
                    ("default", JInt 50)])]
           ["jql"] |};
    {| name := "jira_get_issue";
       description := "Get detailed information about a specific issue";
       inputSchema :=
         object_schema
           [string_property "issue_key" "The issue key (e.g., 'PROJ-123')"]
           ["issue_key"] |};
    {| name := "jira_create_issue";
       description := "Create a new JIRA issue (story, task, bug, epic, etc.)";
       inputSchema :=
         object_schema
           [string_property "project_key"
              "The project key where to create the issue";
            string_property "issue_type"
              "Issue type (Story, Task, Bug, Epic, Sub-task, etc.)";
            string_property "summary" "Issue title/summary";
            string_property "description"
              "Detailed description of the issue (optional)";
            string_property "assignee" "Assignee username (optional)";
            string_property "priority"
              "Priority (Highest, High, Medium, Low, Lowest) - optional";
            string_list_property "labels" "List of labels (optional)";
            string_property "parent_key"
              "Parent issue key (for sub-tasks or linking to epics)"]
           ["project_key"; "issue_type"; "summary"] |};
    {| name := "jira_update_issue";
       description := "Update an existing JIRA issue";
       inputSchema :=
         object_schema
           [string_property "issue_key" "The issue key to update";
            string_property "summary" "New summary/title (optional)";
            string_property "description" "New description (optional)";
            string_property "assignee" "New assignee username (optional)";
            string_property "priority" "New priority (optional)";
            string_list_property "labels" "New labels list (optional)"]
           ["issue_key"] |};
    {| name := "jira_transition_issue";
       description :=
         "Change the status of an issue (e.g., move from To Do to In Progress)";
       inputSchema :=
         object_schema
           [string_property "issue_key" "The issue key to transition";
            string_property "transition_name"
              "Name of the transition (e.g., 'Start Progress', 'Done', 'Close Issue')"]
           ["issue_key"; "transition_name"] |};
    {| name := "jira_get_available_transitions";
       description := "Get all available status transitions for an issue";
       inputSchema :=
         object_schema [string_property "issue_key" "The issue key"]
           ["issue_key"] |};
    {| name := "jira_add_comment";
       description := "Add a comment to a JIRA issue";
       inputSchema :=
         object_schema
           [string_property "issue_key" "The issue key";
            string_property "comment" "The comment text"]
           ["issue_key"; "comment"] |};
    {| name := "jira_get_epics";
       description := "Get all epics in a project";
       inputSchema :=
         object_schema [string_property "project_key" "The project key"]
           ["project_key"] |};
    {| name := "jira_get_issue_types";
       description := "Get available issue types for a project";
       inputSchema :=
         object_schema [string_property "project_key" "The project key"]
           ["project_key"] |} ].

(** The branches of the [if]/[elif] chain of [handle_call_tool], in the
    order of the source. *)
Inductive branch :=
| on_get_projects
| on_get_project_details
| on_search_issues
| on_get_issue
| on_create_issue
| on_update_issue
| on_transition_issue
| on_get_available_transitions
| on_add_comment
| on_get_epics
| on_get_issue_types.

(** The tests [name == "..."] of the chain; [None] is the final [else]. *)
Definition select_branch (name : string) : option branch :=
  if String.eqb name "jira_get_projects" then Some on_get_projects
  else if String.eqb name "jira_get_project_details" then Some on_get_project_details
  else if String.eqb name "jira_search_issues" then Some on_search_issues
  else if String.eqb name "jira_get_issue" then Some on_get_issue
  else if String.eqb name "jira_create_issue" then Some on_create_issue
  else if String.eqb name "jira_update_issue" then Some on_update_issue
  else if String.eqb name "jira_transition_issue" then Some on_transition_issue
  else if String.eqb name "jira_get_available_transitions"
       then Some on_get_available_transitions
  else if String.eqb name "jira_add_comment" then Some on_add_comment
  else if String.eqb name "jira_get_epics" then Some on_get_epics
  else if String.eqb name "jira_get_issue_types" then Some on_get_issue_types
  else None.

Definition text_content (s : string) : list TextContent :=
  [ {| type := "text"; text := s |} ].

(** The [issue_data] that the [jira_create_issue] branch builds. *)
Definition build_issue_data (arguments : dict) : result json :=
  (project_key <- dict_getitem arguments "project_key" ;;
   issue_type <- dict_getitem arguments "issue_type" ;;
   summary <- dict_getitem arguments "summary" ;;
   let issue_data :=
     JDict [("fields",
             JDict [("project", JDict [("key", project_key)]);
                    ("issuetype", JDict [("name", issue_type)]);
                    ("summary", summary)])] in
   issue_data <-
     (if contains arguments "description" then
        description <- dict_getitem arguments "description" ;;
        setitem_in issue_data "fields" "description"
          (JDict [("type", JStr "doc");
                  ("version", JInt 1);
                  ("content",
                   JList [JDict [("type", JStr "paragraph");
                                 ("content",
                                  JList [JDict [("text", description);
                                                ("type", JStr "text")]])]])])
      else inr issue_data) ;;
   issue_data <-
     (if contains arguments "assignee" then
        assignee <- dict_getitem arguments "assignee" ;;
        setitem_in issue_data "fields" "assignee" (JDict [("name", assignee)])
      else inr issue_data) ;;
   issue_data <-
     (if contains arguments "priority" then
        priority <- dict_getitem arguments "priority" ;;
        setitem_in issue_data "fields" "priority" (JDict [("name", priority)])
      else inr issue_data) ;;
   issue_data <-
     (if contains arguments "labels" then
        labels <- dict_getitem arguments "labels" ;;
        setitem_in issue_data "fields" "labels" labels
      else inr issue_data) ;;
   issue_data <-
     (if contains arguments "parent_key" then
        parent_key <- dict_getitem arguments "parent_key" ;;
        setitem_in issue_data "fields" "parent" (JDict [("key", parent_key)])
      else inr issue_data) ;;
   inr issue_data)%result.

(** The [update_data] that the [jira_update_issue] branch builds. *)
Definition build_update_data (arguments : dict) : result json :=
  (let update_data := JDict [("fields", JDict [])] in
   update_data <-
     (if contains arguments "summary" then
        summary <- dict_getitem arguments "summary" ;;
        setitem_in update_data "fields" "summary" summary
      else inr update_data) ;;
   update_data <-
     (if contains arguments "description" then
        description <- dict_getitem arguments "description" ;;
        setitem_in update_data "fields" "description"
          (JDict [("type", JStr "doc");
                  ("version", JInt 1);
                  ("content",
                   JList [JDict [("type", JStr "paragraph");
                                 ("content",
                                  JList [JDict [("text", description);
                                                ("type", JStr "text")]])]])])
      else inr update_data) ;;
   update_data <-
     (if contains arguments "assignee" then
        assignee <- dict_getitem arguments "assignee" ;;
        setitem_in update_data "fields" "assignee" (JDict [("name", assignee)])
      else inr update_data) ;;
   update_data <-
     (if contains arguments "priority" then
        priority <- dict_getitem arguments "priority" ;;
        setitem_in update_data "fields" "priority" (JDict [("name", priority)])
      else inr update_data) ;;
   update_data <-
     (if contains arguments "labels" then
        labels <- dict_getitem arguments "labels" ;;
        setitem_in update_data "fields" "labels" labels
      else inr update_data) ;;
   inr update_data)%result.

(** The loop of the [jira_transition_issue] branch over the items still
    to visit: the [id] of the first transition whose lower-cased name is
    the lower-cased requested name, [None] when the loop ends without a
    [break]. *)
Fixpoint find_transition_id (arguments : dict) (transitions : list json)
  : result json :=
  match transitions with
  | [] => inr JNull
  | transition :: rest =>
      (transition_name <- getitem transition "name" ;;
       have <- lower transition_name ;;
       requested <- dict_getitem arguments "transition_name" ;;
       want <- lower requested ;;
       if String.eqb have want then getitem transition "id"
       else find_transition_id arguments rest)%result
  end.

(** [[t["name"] for t in transitions]]. *)
Fixpoint transition_names (transitions : list json) : result (list json) :=
  match transitions with
  | [] => inr []
  | t :: rest =>
      (n <- getitem t "name" ;;
       names <- transition_names rest ;;
       inr (n :: names))%result
  end.

Local Open Scope world_scope.

(** The body of one branch. *)
Definition run_branch (b : branch) (arguments : dict) : M (list TextContent) :=
  match b with
  | on_get_projects =>
      projects <- Client.get_projects ;;
      ret (text_content (Json.dumps projects))
  | on_get_project_details =>
      project_key <- lift (dict_getitem arguments "project_key") ;;
      project <- Client.get_project_details project_key ;;
      ret (text_content (Json.dumps project))
  | on_search_issues =>
      jql <- lift (dict_getitem arguments "jql") ;;
      result <- Client.search_issues jql
                  (dict_get arguments "fields" JNull)
                  (dict_get arguments "max_results" (JInt 50)) ;;
      ret (text_content (Json.dumps result))
  | on_get_issue =>
      issue_key <- lift (dict_getitem arguments "issue_key") ;;
      issue <- Client.get_issue issue_key ;;
      ret (text_content (Json.dumps issue))
  | on_create_issue =>
      issue_data <- lift (build_issue_data arguments) ;;
      result <- Client.create_issue issue_data ;;
      ret (text_content (Json.dumps result))
  | on_update_issue =>
      update_data <- lift (build_update_data arguments) ;;
      issue_key <- lift (dict_getitem arguments "issue_key") ;;
      Client.update_issue issue_key update_data ;;;
      issue_key <- lift (dict_getitem arguments "issue_key") ;;
      ret (text_content ("Issue " ++ str issue_key ++ " updated successfully"))
  | on_transition_issue =>
      issue_key <- lift (dict_getitem arguments "issue_key") ;;
      transitions <- Client.get_issue_transitions issue_key ;;
      items <- lift (iter transitions) ;;
      transition_id <- lift (find_transition_id arguments items) ;;
      if negb (truthy transition_id) then
        available <- lift (transition_names items) ;;
        requested <- lift (dict_getitem arguments "transition_name") ;;
        ret (text_content
               ("Transition '" ++ str requested
                  ++ "' not found. Available transitions: "
                  ++ str (JList available)))
      else
        issue_key <- lift (dict_getitem arguments "issue_key") ;;
        Client.transition_issue issue_key transition_id ;;;
        issue_key <- lift (dict_getitem arguments "issue_key") ;;
        requested <- lift (dict_getitem arguments "transition_name") ;;
        ret (text_content
               ("Issue " ++ str issue_key ++ " transitioned to " ++ str requested))
  | on_get_available_transitions =>
      issue_key <- lift (dict_getitem arguments "issue_key") ;;
      transitions <- Client.get_issue_transitions issue_key ;;
      ret (text_content (Json.dumps transitions))
  | on_add_comment =>
      issue_key <- lift (dict_getitem arguments "issue_key") ;;
      comment <- lift (dict_getitem arguments "comment") ;;
      result <- Client.add_comment issue_key comment ;;
      ret (text_content (Json.dumps result))
  | on_get_epics =>
      project_key <- lift (dict_getitem arguments "project_key") ;;
      epics <- Client.get_epics project_key ;;
      ret (text_content (Json.dumps epics))
  | on_get_issue_types =>
      project_key <- lift (dict_getitem arguments "project_key") ;;
      issue_types <- Client.get_issue_types project_key ;;
      ret (text_content (Json.dumps issue_types))
  end.

(** The body of the [try] statement of [handle_call_tool]. *)
Definition dispatch (name : string) (arguments : dict) : M (list TextContent) :=
  match select_branch name with
  | Some b => run_branch b arguments
  | None => ret (text_content ("Unknown tool: " ++ name))
  end.

(** [handle_call_tool(name, arguments)]. *)
Definition handle_call_tool (name : string) (arguments : dict)
  : M (list TextContent) :=
  try_except (dispatch name arguments) is_Exception
    (fun e =>
       logger ERROR ("Error handling tool call " ++ name ++ ": " ++ exn_str e) ;;;
       ret (text_content ("Error: " ++ exn_str e))).

End Dispatcher.

(** ** The entry point *)

Module Entry.

Local Open Scope world_scope.

(** [os.getenv(name, default)] over the variables of the environment. *)
Definition getenv (env : string -> option string) (name default : string)
  : string :=
  match env name with
  | Some v => v
  | None => default
  end.

(** [try: body / finally: final]: [final] runs whatever [body] did, and
    the outcome of [body] stands unless [final] raises. *)
Definition try_finally {A} (body : M A) (final : M unit) : M A :=
  fun w =>
    match body w with
    | (r, w') =>
        match final w' with
        | (inl e, w'') => (inl e, w'')
        | (inr _, w'') => (r, w'')
        end
    end.

(** [main()].  [serve] stands for the message loop of the host protocol,
    [server.run] inside [stdio_server()]. *)
Definition main (env : string -> option string) (serve : M unit) : M unit :=
  let cfg :=
    {| base_url := getenv env "JIRA_BASE_URL" "https://risadsbrain.atlassian.net";
       username := getenv env "JIRA_USERNAME" "rrmalik66@gmail.com";
       api_token := getenv env "JIRA_API_TOKEN" "REDACTED";
       default_project_key := getenv env "JIRA_DEFAULT_PROJECT" "DAV1" |} in
  Client.initialize cfg ;;;
  try_finally serve Client.close.

End Entry.

(** ** Vocabulary of the properties *)

Import Py.

(** The client has been initialized: both attributes are set. *)
Definition initialized (w : world) (cfg : JIRAConfig) : Prop :=
  config (jira_client w) = Some cfg /\ session (jira_client w) <> None.

(** The client has not been initialized: an attribute is missing. *)
Definition uninitialized (w : world) : Prop :=
  session (jira_client w) = None \/ config (jira_client w) = None.

Definition not_initialized_error : exn :=
  Exn ValueError "JIRA client not initialized".

(** A [fields] argument of the declared type [Optional[List[str]]]. *)
Definition optional_str_list (fields : json) : Prop :=
  fields = JNull \/ exists l : list string, fields = JList (map JStr l).

(** The request that [_make_request] issues for an endpoint. *)
Definition api_request (cfg : JIRAConfig) (method endpoint : string)
  (kwargs : dict) : request :=
  {| req_method := method;
     req_url := urljoin (base_url cfg) ("/rest/api/3/" ++ endpoint);
     req_kwargs := kwargs |}.

Definition catalog_names : list string := map name Dispatcher.handle_list_tools.

(** Worlds to run the program in: a client that was never initialized,
    and the same client after [initialize]. *)
Definition example_config : JIRAConfig :=
  {| base_url := "https://example.atlassian.net";
     username := "user@example.com";
     api_token := "token";
     default_project_key := "PROJ" |}.

Definition fresh_world (remote : list request -> request -> result json) : world :=
  {| jira_client := {| config := None; session := None |};
     tracker := remote;
     sent := [];
     logged := [] |}.

Definition ready_world (remote : list request -> request -> result json) : world :=
  snd (Client.initialize example_config (fresh_world remote)).

(** The rich-text wrapper in the words of the specification: a document of
    type [doc], version 1, whose content is one paragraph whose content is
    one text run that holds the text. *)
Definition rich_text_document (text : json) : json :=
  JDict [("type", JStr "doc");
         ("version", JInt 1);
         ("content",
          JList [JDict [("type", JStr "paragraph");
                        ("content",
                         JList [JDict [("text", text);
                                       ("type", JStr "text")]])]])].

(** The item that an optional argument contributes to a field document:
    nothing when the caller did not supply the argument. *)
Definition optional_field (arguments : dict) (argument field : string)
  (wrap : json -> json) : dict :=
  match lookup arguments argument with
  | Some v => [(field, wrap v)]
  | None => []
  end.

Definition named (v : json) : json := JDict [("name", v)].

Definition keyed (v : json) : json := JDict [("key", v)].

(** The optional part of the field document of a new issue. *)
Definition create_optional_fields (arguments : dict) : dict :=
  (optional_field arguments "description" "description" rich_text_document
   ++ optional_field arguments "assignee" "assignee" named
   ++ optional_field arguments "priority" "priority" named
   ++ optional_field arguments "labels" "labels" (fun v => v)
   ++ optional_field arguments "parent_key" "parent" keyed)%list.

(** The field document of an update. *)
Definition update_fields (arguments : dict) : dict :=
  (optional_field arguments "summary" "summary" (fun v => v)
   ++ optional_field arguments "description" "description" rich_text_document
   ++ optional_field arguments "assignee" "assignee" named
   ++ optional_field arguments "priority" "priority" named
   ++ optional_field arguments "labels" "labels" (fun v => v))%list.

(** The optional arguments of [jira_create_issue], each with the field it
    becomes. *)
Definition create_optional_arguments : list (string * string) :=
  [("description", "description"); ("assignee", "assignee");
   ("priority", "priority"); ("labels", "labels"); ("parent_key", "parent")].

(** A tracker that answers every request with [null]. *)
Definition null_tracker : list request -> request -> result json :=
  fun _ _ => inr JNull.

(** *** Transitions, in the words of the specification *)

(** The display name of a transition the tracker reports. *)
Definition display_name (t : json) : string :=
  match getitem t "name" with
  | inr (JStr s) => s
  | _ => ""
  end.

(** Its identifier. *)
Definition identifier (t : json) : json :=
  match getitem t "id" with
  | inr v => v
  | inl _ => JNull
  end.

(** A transition is an object with a text [name] and an [id] that is
    neither missing nor empty. *)
Definition is_transition (t : json) : bool :=
  match getitem t "name", getitem t "id" with
  | inr (JStr _), inr id => truthy id
  | _, _ => false
  end.

(** The requested name and the display name are the same text once both
    are in lower case. *)
Definition same_name (requested : string) (t : json) : bool :=
  String.eqb (lower_str (display_name t)) (lower_str requested).

(** The first available transition with the requested name. *)
Definition first_match (requested : string) (transitions : list json)
  : option json :=
  find (same_name requested) transitions.

(** The transitions of the example of the specification, and a tracker
    that lists them on every [GET] and answers [null] otherwise. *)
Definition example_transitions : list json :=
  [JDict [("id", JStr "11"); ("name", JStr "In Progress")];
   JDict [("id", JStr "21"); ("name", JStr "Done")]].

Definition transitions_tracker : list request -> request -> result json :=
  fun _ rq =>
    if String.eqb (req_method rq) "GET"
    then inr (JDict [("transitions", JList example_transitions)])
    else inr JNull.

(** *** Failures *)

(** The tracker fails only with exceptions that derive from [Exception]:
    transport, HTTP status and decoding errors. *)
Definition raises_exceptions_only
  (remote : list request -> request -> result json) : Prop :=
  forall history rq e, remote history rq = inl e -> is_Exception (exn_class e) = true.

(** A pure step raises nothing but exceptions that derive from
    [Exception]. *)
Definition pure_safe {A} (r : result A) : Prop :=
  match r with
  | inl e => is_Exception (exn_class e) = true
  | inr _ => True
  end.

(** In a world whose tracker fails only with such exceptions, the
    computation raises only such exceptions, returns values that satisfy
    [Q], and leaves the tracker as it is. *)
Definition safe {A} (c : M A) (Q : A -> Prop) : Prop :=
  forall w,
    raises_exceptions_only (tracker w) ->
    tracker (snd (c w)) = tracker w
    /\ match fst (c w) with
       | inl e => is_Exception (exn_class e) = true
       | inr a => Q a
       end.

(** A list of results that holds one text. *)
Definition one_text (texts : list TextContent) : Prop :=
  exists s, texts = [ {| type := "text"; text := s |} ].

(** *** An example tracker *)

(** A search result with text that needs escaping, and a tracker that
    answers every request with it. *)
Definition example_search_result : json :=
  JDict [("startAt", JInt 0);
         ("maxResults", JInt 50);
         ("total", JInt 1);
         ("issues",
          JList [JDict [("key", JStr "PROJ-1");
                        ("fields",
                         JDict [("summary",
                                 JStr ("Say " ++ String dquote "hi"
                                         ++ String dquote (String "010" "twice\")));
                                ("labels", JList []);
                                ("votes", JInt (-3));
                                ("resolution", JNull);
                                ("flagged", JBool false)])]])].

Definition search_tracker : list request -> request -> result json :=
  fun _ _ => inr example_search_result.

(** *** The catalog's schemas *)

Definition strings_of (l : list json) : list string :=
  flat_map (fun v => match v with JStr s => [s] | _ => [] end) l.

(** The arguments a tool's schema requires. *)
Definition schema_required (t : Tool) : list string :=
  match get (inputSchema t) "required" (JList []) with
  | inr (JList l) => strings_of l
  | _ => []
  end.

(** The arguments a tool's schema declares. *)
Definition schema_properties (t : Tool) : list string :=
  match get (inputSchema t) "properties" (JDict []) with
  | inr (JDict d) => keys d
  | _ => []
  end.

(** The first of the keys that the mapping lacks. *)
Fixpoint first_missing (arguments : dict) (ks : list string) : option string :=
  match ks with
  | [] => None
  | k :: r => if contains arguments k then first_missing arguments r else Some k
  end.

(** *** What a computation does to the world *)

Definition is_write (rq : request) : bool := negb (String.eqb (req_method rq) "GET").

(** The computation leaves the client and the tracker alone, adds at most
    [n] requests, at most [m] of them writes, and only adds to the log. *)
Definition appends {A} (n m : nat) (c : M A) : Prop :=
  forall w,
    jira_client (snd (c w)) = jira_client w
    /\ tracker (snd (c w)) = tracker w
    /\ (exists reqs,
          sent (snd (c w)) = (sent w ++ reqs)%list
          /\ List.length reqs <= n
          /\ List.length (filter is_write reqs) <= m)
    /\ exists lines, logged (snd (c w)) = (logged w ++ lines)%list.

(** Two argument mappings give the same value to every key of a list. *)
Definition agree_on (ks : list string) (a b : dict) : Prop :=
  forall k, In k ks -> lookup a k = lookup b k.

(** Environments for the entry point: no variable set, and one where the
    user name has a character outside ASCII. *)
Definition empty_env : string -> option string := fun _ => None.

Definition non_ascii_env : string -> option string :=
  fun k => if String.eqb k "JIRA_USERNAME" then Some (String "233" "ric") else None.

(** A tracker that refuses every request with a status error, and one that
    times out. *)
Definition refusing_tracker : list request -> request -> result json :=
  fun _ _ => inl (Exn ClientResponseError "404, message='Not Found'").

Definition slow_tracker : list request -> request -> result json :=
  fun _ _ => inl (Exn TimeoutError "").

(** Every code point of the text is below 128. *)
Fixpoint all_ascii (s : string) : bool :=
  match s with
  | EmptyString => true
  | String c r => Nat.ltb (nat_of_ascii c) 128 && all_ascii r
  end.

(** The catalog's entry at a position, to have a tool at hand. *)
Definition tool_at (i : nat) : Tool :=
  nth i Dispatcher.handle_list_tools
    {| name := ""; description := ""; inputSchema := JNull |}.

(** The query that [get_epics] builds for a project. *)
Definition epics_jql (project_key : json) : string :=
  "project = " ++ String dquote (str project_key)
    ++ String dquote " AND issuetype = Epic ORDER BY created DESC".

(** The request of a search. *)
Definition search_request (cfg : JIRAConfig) (jql max_results : json)
  (fields : string) : request :=
  api_request cfg "GET" "search"
    [("params",
      JDict [("jql", jql); ("maxResults", max_results); ("fields", JStr fields)])].

(** The optional arguments of [jira_update_issue], each with the field it
    becomes. *)
Definition update_optional_arguments : list (string * string) :=
  [("summary", "summary"); ("description", "description");
   ("assignee", "assignee"); ("priority", "priority"); ("labels", "labels")].

(** The configuration that [main] reads from the environment. *)
Definition env_config (env : string -> option string) : JIRAConfig :=
  {| base_url := Entry.getenv env "JIRA_BASE_URL" "https://risadsbrain.atlassian.net";
     username := Entry.getenv env "JIRA_USERNAME" "rrmalik66@gmail.com";
     api_token := Entry.getenv env "JIRA_API_TOKEN" "REDACTED";
     default_project_key := Entry.getenv env "JIRA_DEFAULT_PROJECT" "DAV1" |}.

(** A listed transition with a text [name] and some [id]. *)
Definition has_name_and_id (t : json) : bool :=
  match getitem t "name", getitem t "id" with
  | inr (JStr _), inr _ => true
  | _, _ => false
  end.

(** The [fields] parameter that [search_issues] sends:
    [','.join(fields) if fields else '*all']. *)
Definition fields_parameter (fields : json) : result string :=
  if truthy fields then str_join "," fields else inr "*all".

(** A tracker that honours the fields of a search: it answers the example
    result to the search for [summary,status] in [PROJ] and refuses every
    other request. *)
Definition fields_tracker : list request -> request -> result json :=
  fun _ rq =>
    if String.eqb (req_method rq) "GET"
       && String.eqb (url_reference (req_url rq)) "/rest/api/3/search"
       && String.eqb (Json.dumps (JDict (req_kwargs rq)))
            (Json.dumps
               (JDict [("params",
                        JDict [("jql", JStr "project = PROJ");
                               ("maxResults", JInt 50);
                               ("fields", JStr "summary,status")])]))
    then inr example_search_result
    else inl (Exn ClientResponseError "400, message='Bad Request'").

(** * Properties *)

(** ** The request primitive *)

Lemma make_request_uninitialized w method endpoint kwargs :
  uninitialized w ->
  Client._make_request method endpoint kwargs w = (inl not_initialized_error, w).
Proof.
  intros H. unfold Client._make_request, bind, get_jira_client.
  destruct H as [H | H]; rewrite H.
  - reflexivity.
  - destruct (session (jira_client w)); reflexivity.
Qed.

Lemma make_request_initialized w cfg method endpoint kwargs :
  initialized w cfg ->
  Client._make_request method endpoint kwargs w =
  let rq := api_request cfg method endpoint kwargs in
  match tracker w (sent w) rq with
  | inr v => (inr v, with_request rq w)
  | inl e =>
      (inl e,
       if is_ClientError (exn_class e)
       then with_line ERROR ("JIRA API request failed: " ++ exn_str e)
              (with_request rq w)
       else with_request rq w)
  end.
Proof.
  intros [Hc Hs]. unfold Client._make_request, bind, get_jira_client.
  rewrite Hc. destruct (session (jira_client w)) as [s|]; [|congruence].
  unfold try_except, session_request, api_request. cbn.
  destruct (tracker w (sent w) _) as [e|v]; [|reflexivity].
  destruct (is_ClientError (exn_class e)); reflexivity.
Qed.

(** ** The catalog and the chain of tests *)

Ltac split_name_tests n :=
  repeat match goal with
         | |- context [String.eqb n ?s] => destruct (String.eqb_spec n s)
         | H : context [String.eqb n ?s] |- _ => destruct (String.eqb_spec n s)
         end.

Lemma select_branch_catalog n :
  (exists b, Dispatcher.select_branch n = Some b) <-> In n catalog_names.
Proof.
  split.
  - intros [b Hb]. unfold Dispatcher.select_branch in Hb.
    split_name_tests n; subst; cbn; try tauto. discriminate.
  - cbn. intros H.
    repeat (destruct H as [H | H]; [subst n; cbn; eexists; reflexivity|]).
    contradiction.
Qed.

Lemma select_branch_unknown n :
  ~ In n catalog_names -> Dispatcher.select_branch n = None.
Proof.
  intros H. destruct (Dispatcher.select_branch n) as [b|] eqn:E; [|reflexivity].
  exfalso. apply H, select_branch_catalog. now exists b.
Qed.

(** C9: the names the catalog declares are exactly the names the chain of
    tests of [handle_call_tool] answers with a branch; the catalog declares
    no name twice; and every branch is selected by one catalog name and by
    no other name. *)
Theorem catalog_dispatch_parity :
  (forall n, In n catalog_names <-> exists b, Dispatcher.select_branch n = Some b)
  /\ NoDup catalog_names
  /\ (forall b, exists n,
         In n catalog_names
         /\ Dispatcher.select_branch n = Some b
         /\ forall n', Dispatcher.select_branch n' = Some b -> n' = n).
Proof.
  split; [|split].
  - intros n. symmetry. apply select_branch_catalog.
  - cbn. repeat (constructor; [cbn; intuition discriminate|]). constructor.
  - intros b.
    destruct b;
      match goal with
      | |- exists n, _ /\ _ = Some ?b /\ _ =>
          let go s :=
            (exists s; split; [cbn; tauto|]; split; [reflexivity|]) in
          first [ go "jira_get_projects" | go "jira_get_project_details"
                | go "jira_search_issues" | go "jira_get_issue"
                | go "jira_create_issue" | go "jira_update_issue"
                | go "jira_transition_issue"
                | go "jira_get_available_transitions" | go "jira_add_comment"
                | go "jira_get_epics" | go "jira_get_issue_types" ]
      end;
      intros n' H; unfold Dispatcher.select_branch in H;
      split_name_tests n'; congruence.
Qed.

(** C5: a tool name outside the catalog gets the one text
    [Unknown tool: <name>], whatever the arguments, and the world is left
    as it was: no request is sent and nothing is logged. *)
Theorem unknown_tool_answer name arguments w :
  ~ In name catalog_names ->
  Dispatcher.handle_call_tool name arguments w =
  (inr [ {| type := "text"; text := "Unknown tool" ++ ": " ++ name |} ], w).
Proof.
  intros H. unfold Dispatcher.handle_call_tool, Dispatcher.dispatch.
  rewrite (select_branch_unknown _ H). reflexivity.
Qed.

(** ** Operations of an uninitialized client *)

Lemma join_items_strs sep (l : list string) n :
  join_items sep n (map JStr l) = inr (join sep l).
Proof.
  revert n. induction l as [|x r IH]; intros n; [reflexivity|].
  destruct r as [|y r']; [reflexivity|].
  change (map JStr (x :: y :: r')) with (JStr x :: map JStr (y :: r')).
  cbn [join_items]. change (JStr y :: map JStr r') with (map JStr (y :: r')).
  rewrite IH. reflexivity.
Qed.

Lemma search_fields_param fields :
  optional_str_list fields ->
  exists p,
    (if truthy fields
     then rbind (str_join "," fields) (fun s => inr (JStr s))
     else inr (JStr "*all")) = inr p.
Proof.
  intros [-> | [l ->]]; [now eexists|].
  destruct (truthy (JList (map JStr l))); [|now eexists].
  cbn [str_join]. rewrite join_items_strs. now eexists.
Qed.

(** C7: while the session or the configuration is missing, the request
    primitive raises [ValueError("JIRA client not initialized")] for every
    method, endpoint and keyword arguments and leaves the world as it was
    (no request is sent), and so does every operation of the client, given
    arguments of the declared types. *)
Theorem uninitialized_client_raises w :
  uninitialized w ->
  (forall method endpoint kwargs,
      Client._make_request method endpoint kwargs w = (inl not_initialized_error, w))
  /\ Client.get_projects w = (inl not_initialized_error, w)
  /\ (forall project_key,
         Client.get_project_details project_key w = (inl not_initialized_error, w))
  /\ (forall jql fields max_results,
         optional_str_list fields ->
         Client.search_issues jql fields max_results w
         = (inl not_initialized_error, w))
  /\ (forall issue_key,
         Client.get_issue issue_key w = (inl not_initialized_error, w))
  /\ (forall issue_data,
         Client.create_issue issue_data w = (inl not_initialized_error, w))
  /\ (forall issue_key update_data,
         Client.update_issue issue_key update_data w
         = (inl not_initialized_error, w))
  /\ (forall issue_key transition_id,
         Client.transition_issue issue_key transition_id w
         = (inl not_initialized_error, w))
  /\ (forall issue_key,
         Client.get_issue_transitions issue_key w = (inl not_initialized_error, w))
  /\ (forall issue_key comment,
         Client.add_comment issue_key comment w = (inl not_initialized_error, w))
  /\ (forall project_key,
         Client.get_issue_types project_key w = (inl not_initialized_error, w))
  /\ (forall project_key,
         Client.get_epics project_key w = (inl not_initialized_error, w))
  /\ (forall issue_key epic_key,
         Client.link_issue_to_epic issue_key epic_key w
         = (inl not_initialized_error, w)).
Proof.
  intros H.
  assert (Hsearch : forall jql fields max_results,
             optional_str_list fields ->
             Client.search_issues jql fields max_results w
             = (inl not_initialized_error, w)).
  { intros jql fields max_results Hf.
    destruct (search_fields_param fields Hf) as [p Hp].
    unfold Client.search_issues, bind, lift. rewrite Hp.
    now rewrite make_request_uninitialized. }
  repeat split; intros;
    try (apply Hsearch; assumption);
    unfold Client.get_projects, Client.get_project_details, Client.get_issue,
      Client.create_issue, Client.update_issue, Client.transition_issue,
      Client.get_issue_transitions, Client.add_comment, Client.get_issue_types,
      Client.get_epics, Client.link_issue_to_epic, Client.update_issue,
      Client.get_project_details, bind;
    try (rewrite Hsearch by (now left));
    try (rewrite make_request_uninitialized by assumption);
    reflexivity.
Qed.

Lemma uninitialized_client_raises_witness :
  uninitialized (fresh_world null_tracker)
  /\ Client.get_issue (JStr "PROJ-1") (fresh_world null_tracker)
     = (inl not_initialized_error, fresh_world null_tracker).
Proof.
  split; [left; reflexivity|].
  apply (uninitialized_client_raises (fresh_world null_tracker)).
  left; reflexivity.
Defined.

Lemma unknown_tool_answer_witness :
  ~ In "jira_bogus" catalog_names
  /\ Dispatcher.handle_call_tool "jira_bogus" [("issue_key", JStr "PROJ-1")]
       (ready_world null_tracker)
     = (inr [ {| type := "text"; text := "Unknown tool: jira_bogus" |} ],
        ready_world null_tracker).
Proof.
  assert (H : ~ In "jira_bogus" catalog_names).
  { cbn. intuition discriminate. }
  split; [exact H|].
  exact (unknown_tool_answer "jira_bogus" [("issue_key", JStr "PROJ-1")]
           (ready_world null_tracker) H).
Defined.

(** ** Field documents *)

Ltac split_lookups arguments :=
  repeat match goal with
         | |- context [lookup arguments ?k] =>
             let E := fresh "E" in
             destruct (lookup arguments k) eqn:E
         end.

Lemma build_update_data_fields arguments :
  Dispatcher.build_update_data arguments
  = inr (JDict [("fields", JDict (update_fields arguments))]).
Proof.
  unfold Dispatcher.build_update_data, update_fields, optional_field, contains,
    dict_getitem.
  split_lookups arguments; reflexivity.
Qed.

Lemma build_issue_data_fields arguments project_key issue_type summary :
  lookup arguments "project_key" = Some project_key ->
  lookup arguments "issue_type" = Some issue_type ->
  lookup arguments "summary" = Some summary ->
  Dispatcher.build_issue_data arguments
  = inr (JDict [("fields",
                 JDict ([("project", keyed project_key);
                         ("issuetype", named issue_type);
                         ("summary", summary)]
                          ++ create_optional_fields arguments)%list)]).
Proof.
  intros Hp Ht Hs.
  unfold Dispatcher.build_issue_data, create_optional_fields, optional_field,
    contains, dict_getitem.
  rewrite Hp, Ht, Hs.
  split_lookups arguments; reflexivity.
Qed.

(** What the branches of the two mutating tools do in an initialized
    world. *)
Lemma run_update_issue w cfg arguments issue_key :
  initialized w cfg ->
  lookup arguments "issue_key" = Some issue_key ->
  let rq := api_request cfg "PUT" ("issue/" ++ str issue_key)
              [("json", JDict [("fields", JDict (update_fields arguments))])] in
  let out := Dispatcher.handle_call_tool "jira_update_issue" arguments w in
  sent (snd out) = (sent w ++ [rq])%list
  /\ (forall response,
         tracker w (sent w) rq = inr response ->
         out = (inr (Dispatcher.text_content
                       ("Issue " ++ str issue_key ++ " updated successfully")),
                with_request rq w)).
Proof.
  intros Hi Hk rq out. subst out.
  unfold Dispatcher.handle_call_tool, Dispatcher.dispatch.
  change (Dispatcher.select_branch "jira_update_issue")
    with (Some Dispatcher.on_update_issue).
  unfold Dispatcher.run_branch, try_except, bind, lift, Client.update_issue, bind.
  rewrite build_update_data_fields. unfold dict_getitem. rewrite Hk.
  rewrite (make_request_initialized _ _ _ _ _ Hi). fold rq. cbn zeta.
  destruct (tracker w (sent w) rq) as [e|v].
  - split; [|discriminate].
    destruct (is_ClientError (exn_class e)), (is_Exception (exn_class e));
      reflexivity.
  - split; [reflexivity|]. intros _ _. reflexivity.
Qed.

Lemma run_create_issue w cfg arguments project_key issue_type summary :
  initialized w cfg ->
  lookup arguments "project_key" = Some project_key ->
  lookup arguments "issue_type" = Some issue_type ->
  lookup arguments "summary" = Some summary ->
  let fields := ([("project", keyed project_key);
                  ("issuetype", named issue_type);
                  ("summary", summary)]
                   ++ create_optional_fields arguments)%list in
  let rq := api_request cfg "POST" "issue"
              [("json", JDict [("fields", JDict fields)])] in
  let out := Dispatcher.handle_call_tool "jira_create_issue" arguments w in
  sent (snd out) = (sent w ++ [rq])%list
  /\ (forall response,
         tracker w (sent w) rq = inr response ->
         out = (inr (Dispatcher.text_content (Json.dumps response)),
                with_request rq w)).
Proof.
  intros Hi Hp Ht Hs fields rq out. subst out.
  unfold Dispatcher.handle_call_tool, Dispatcher.dispatch.
  change (Dispatcher.select_branch "jira_create_issue")
    with (Some Dispatcher.on_create_issue).
  unfold Dispatcher.run_branch, try_except, bind, lift, Client.create_issue.
  rewrite (build_issue_data_fields _ _ _ _ Hp Ht Hs).
  rewrite (make_request_initialized _ _ _ _ _ Hi). fold fields. fold rq. cbn zeta.
  destruct (tracker w (sent w) rq) as [e|v].
  - split; [|discriminate].
    destruct (is_ClientError (exn_class e)), (is_Exception (exn_class e));
      reflexivity.
  - split; [reflexivity|]. intros r [= ->]. reflexivity.
Qed.

(** C10: called with [issue_key] alone, the update tool sends exactly one
    request, a [PUT] on the issue whose body is the empty field document,
    and, when the tracker accepts it, answers that the issue was updated. *)
Theorem update_issue_key_only w cfg issue_key :
  initialized w cfg ->
  let rq := api_request cfg "PUT" ("issue/" ++ str issue_key)
              [("json", JDict [("fields", JDict [])])] in
  let out := Dispatcher.handle_call_tool "jira_update_issue"
               [("issue_key", issue_key)] w in
  sent (snd out) = (sent w ++ [rq])%list
  /\ (forall response,
         tracker w (sent w) rq = inr response ->
         out = (inr [ {| type := "text";
                         text := "Issue " ++ str issue_key
                                   ++ " updated successfully" |} ],
                with_request rq w)).
Proof.
  intros Hi.
  exact (run_update_issue w cfg [("issue_key", issue_key)] issue_key Hi eq_refl).
Qed.

Lemma update_issue_key_only_witness :
  initialized (ready_world null_tracker) example_config
  /\ fst (Dispatcher.handle_call_tool "jira_update_issue"
            [("issue_key", JStr "PROJ-1")] (ready_world null_tracker))
     = inr [ {| type := "text"; text := "Issue PROJ-1 updated successfully" |} ].
Proof.
  assert (Hi : initialized (ready_world null_tracker) example_config)
    by (split; [reflexivity|discriminate]).
  split; [exact Hi|].
  destruct (update_issue_key_only (ready_world null_tracker) example_config
              (JStr "PROJ-1") Hi) as [_ H].
  rewrite (H JNull eq_refl). reflexivity.
Defined.

(** C4: when the caller supplies [issue_key] and [labels] and none of
    [summary], [description], [assignee] and [priority], the update tool
    sends exactly one request, whose field document has the one key
    [labels], with the caller's value. *)
Theorem update_labels_only w cfg arguments issue_key labels :
  initialized w cfg ->
  lookup arguments "issue_key" = Some issue_key ->
  lookup arguments "labels" = Some labels ->
  lookup arguments "summary" = None ->
  lookup arguments "description" = None ->
  lookup arguments "assignee" = None ->
  lookup arguments "priority" = None ->
  exists fields,
    sent (snd (Dispatcher.handle_call_tool "jira_update_issue" arguments w))
    = (sent w ++ [api_request cfg "PUT" ("issue/" ++ str issue_key)
                    [("json", JDict [("fields", JDict fields)])]])%list
    /\ fields = [("labels", labels)]
    /\ keys fields = ["labels"].
Proof.
  intros Hi Hk Hl Hs Hd Ha Hp.
  exists (update_fields arguments). split.
  - apply (run_update_issue w cfg arguments issue_key Hi Hk).
  - unfold update_fields, optional_field. rewrite Hl, Hs, Hd, Ha, Hp.
    split; reflexivity.
Qed.

Lemma update_labels_only_witness :
  initialized (ready_world null_tracker) example_config
  /\ exists fields,
    sent (snd (Dispatcher.handle_call_tool "jira_update_issue"
                 [("issue_key", JStr "PROJ-1"); ("labels", JList [JStr "urgent"])]
                 (ready_world null_tracker)))
    = (sent (ready_world null_tracker)
         ++ [api_request example_config "PUT" ("issue/" ++ str (JStr "PROJ-1"))
               [("json", JDict [("fields", JDict fields)])]])%list
    /\ fields = [("labels", JList [JStr "urgent"])]
    /\ keys fields = ["labels"].
Proof.
  split; [split; [reflexivity|discriminate]|].
  apply (update_labels_only (ready_world null_tracker) example_config
           [("issue_key", JStr "PROJ-1"); ("labels", JList [JStr "urgent"])]
           (JStr "PROJ-1") (JList [JStr "urgent"])).
  - split; [reflexivity|discriminate].
  - reflexivity.
  - reflexivity.
  - reflexivity.
  - reflexivity.
  - reflexivity.
  - reflexivity.
Defined.

Lemma create_optional_keys arguments :
  keys (create_optional_fields arguments)
  = flat_map (fun af : string * string =>
                if contains arguments (fst af) then [snd af] else [])
      create_optional_arguments.
Proof.
  unfold create_optional_fields, optional_field, contains. cbn [flat_map fst snd
    create_optional_arguments].
  split_lookups arguments; reflexivity.
Qed.

(** C3: in an initialized world, a create call that supplies the three
    required arguments sends exactly one request, whose field document has
    the keys [project], [issuetype] and [summary] followed by the field of
    each optional argument the caller supplied, in the order of the source.
    So with the three required arguments alone the keys are exactly those
    three, and the field of an optional argument is there if and only if
    the caller supplied the argument. *)
Theorem create_issue_field_keys w cfg arguments project_key issue_type summary :
  initialized w cfg ->
  lookup arguments "project_key" = Some project_key ->
  lookup arguments "issue_type" = Some issue_type ->
  lookup arguments "summary" = Some summary ->
  exists fields,
    sent (snd (Dispatcher.handle_call_tool "jira_create_issue" arguments w))
    = (sent w ++ [api_request cfg "POST" "issue"
                    [("json", JDict [("fields", JDict fields)])]])%list
    /\ keys fields
       = (["project"; "issuetype"; "summary"]
            ++ flat_map (fun af : string * string =>
                           if contains arguments (fst af) then [snd af] else [])
                 create_optional_arguments)%list
    /\ ((forall k, contains arguments k = true ->
                   In k ["project_key"; "issue_type"; "summary"]) ->
        keys fields = ["project"; "issuetype"; "summary"])
    /\ (forall argument field,
           In (argument, field) create_optional_arguments ->
           (In field (keys fields) <-> contains arguments argument = true)).
Proof.
  intros Hi Hp Ht Hs.
  eexists. split; [apply (run_create_issue w cfg arguments _ _ _ Hi Hp Ht Hs)|].
  assert (Hkeys :
    keys ([("project", keyed project_key); ("issuetype", named issue_type);
           ("summary", summary)] ++ create_optional_fields arguments)%list
    = (["project"; "issuetype"; "summary"]
         ++ flat_map (fun af : string * string =>
                        if contains arguments (fst af) then [snd af] else [])
              create_optional_arguments)%list).
  { unfold keys. rewrite map_app. fold (keys (create_optional_fields arguments)).
    rewrite create_optional_keys. reflexivity. }
  split; [exact Hkeys|]. rewrite Hkeys. clear Hkeys. split.
  - intros Honly. cbn [flat_map create_optional_arguments fst snd].
    repeat match goal with
           | |- context [contains arguments ?k] =>
               let E := fresh "E" in
               destruct (contains arguments k) eqn:E;
               [apply Honly in E; cbn in E; exfalso; intuition discriminate|]
           end.
    reflexivity.
  - intros argument field Hin. cbn [flat_map create_optional_arguments fst snd].
    cbn in Hin.
    repeat (destruct Hin as [[= <- <-] | Hin];
            [destruct (contains arguments "description"),
               (contains arguments "assignee"), (contains arguments "priority"),
               (contains arguments "labels"), (contains arguments "parent_key");
             cbn; intuition discriminate|]).
    contradiction.
Qed.

Lemma create_issue_field_keys_witness :
  initialized (ready_world null_tracker) example_config
  /\ exists fields,
    sent (snd (Dispatcher.handle_call_tool "jira_create_issue"
                 [("project_key", JStr "PROJ"); ("issue_type", JStr "Task");
                  ("summary", JStr "Write the report")]
                 (ready_world null_tracker)))
    = (sent (ready_world null_tracker)
         ++ [api_request example_config "POST" "issue"
               [("json", JDict [("fields", JDict fields)])]])%list
    /\ keys fields = ["project"; "issuetype"; "summary"].
Proof.
  split; [split; [reflexivity|discriminate]|].
  destruct (create_issue_field_keys (ready_world null_tracker) example_config
              [("project_key", JStr "PROJ"); ("issue_type", JStr "Task");
               ("summary", JStr "Write the report")]
              (JStr "PROJ") (JStr "Task") (JStr "Write the report"))
    as [fields [Hsent [Hkeys _]]].
  - split; [reflexivity|discriminate].
  - reflexivity.
  - reflexivity.
  - reflexivity.
  - exists fields. split; [exact Hsent|exact Hkeys].
Defined.

(** ** The rich-text wrapper *)

Lemma run_add_comment w cfg arguments issue_key comment :
  initialized w cfg ->
  lookup arguments "issue_key" = Some issue_key ->
  lookup arguments "comment" = Some comment ->
  let rq := api_request cfg "POST" ("issue/" ++ str issue_key ++ "/comment")
              [("json", JDict [("body", rich_text_document comment)])] in
  let out := Dispatcher.handle_call_tool "jira_add_comment" arguments w in
  sent (snd out) = (sent w ++ [rq])%list
  /\ (forall response,
         tracker w (sent w) rq = inr response ->
         out = (inr (Dispatcher.text_content (Json.dumps response)),
                with_request rq w)).
Proof.
  intros Hi Hk Hc rq out. subst out.
  unfold Dispatcher.handle_call_tool, Dispatcher.dispatch.
  change (Dispatcher.select_branch "jira_add_comment")
    with (Some Dispatcher.on_add_comment).
  unfold Dispatcher.run_branch, try_except, bind, lift, Client.add_comment,
    dict_getitem.
  rewrite Hk, Hc.
  rewrite (make_request_initialized _ _ _ _ _ Hi).
  fold (rich_text_document comment). fold rq. cbn zeta.
  destruct (tracker w (sent w) rq) as [e|v].
  - split; [|discriminate].
    destruct (is_ClientError (exn_class e)), (is_Exception (exn_class e));
      reflexivity.
  - split; [reflexivity|]. intros r [= ->]. reflexivity.
Qed.

(** C6: in an initialized world, a create call and an update call that
    carry a [description], and every comment call, send one request in
    which the caller's text sits in the same wrapper: the document of type
    [doc] and version 1 with one paragraph of one text run, holding the
    text as the caller gave it. *)
Theorem free_text_wrapped w cfg :
  initialized w cfg ->
  (forall arguments project_key issue_type summary description,
      lookup arguments "project_key" = Some project_key ->
      lookup arguments "issue_type" = Some issue_type ->
      lookup arguments "summary" = Some summary ->
      lookup arguments "description" = Some description ->
      exists fields,
        sent (snd (Dispatcher.handle_call_tool "jira_create_issue" arguments w))
        = (sent w ++ [api_request cfg "POST" "issue"
                        [("json", JDict [("fields", JDict fields)])]])%list
        /\ lookup fields "description" = Some (rich_text_document description))
  /\ (forall arguments issue_key description,
         lookup arguments "issue_key" = Some issue_key ->
         lookup arguments "description" = Some description ->
         exists fields,
           sent (snd (Dispatcher.handle_call_tool "jira_update_issue" arguments w))
           = (sent w ++ [api_request cfg "PUT" ("issue/" ++ str issue_key)
                           [("json", JDict [("fields", JDict fields)])]])%list
           /\ lookup fields "description" = Some (rich_text_document description))
  /\ (forall arguments issue_key comment,
         lookup arguments "issue_key" = Some issue_key ->
         lookup arguments "comment" = Some comment ->
         sent (snd (Dispatcher.handle_call_tool "jira_add_comment" arguments w))
         = (sent w ++ [api_request cfg "POST"
                         ("issue/" ++ str issue_key ++ "/comment")
                         [("json", JDict [("body", rich_text_document comment)])]])%list).
Proof.
  intros Hi. split; [|split].
  - intros arguments project_key issue_type summary description Hp Ht Hs Hd.
    eexists. split; [apply (run_create_issue w cfg arguments _ _ _ Hi Hp Ht Hs)|].
    unfold create_optional_fields, optional_field. rewrite Hd. reflexivity.
  - intros arguments issue_key description Hk Hd.
    eexists. split; [apply (run_update_issue w cfg arguments _ Hi Hk)|].
    unfold update_fields, optional_field. rewrite Hd.
    destruct (lookup arguments "summary"); reflexivity.
  - intros arguments issue_key comment Hk Hc.
    apply (run_add_comment w cfg arguments _ _ Hi Hk Hc).
Qed.

Lemma free_text_wrapped_witness :
  initialized (ready_world null_tracker) example_config
  /\ sent (snd (Dispatcher.handle_call_tool "jira_add_comment"
               [("issue_key", JStr "PROJ-1"); ("comment", JStr "Looks good")]
               (ready_world null_tracker)))
  = (sent (ready_world null_tracker)
       ++ [api_request example_config "POST"
             ("issue/" ++ str (JStr "PROJ-1") ++ "/comment")
             [("json", JDict [("body", rich_text_document (JStr "Looks good"))])]])%list.
Proof.
  assert (Hi : initialized (ready_world null_tracker) example_config)
    by (split; [reflexivity|discriminate]).
  split; [exact Hi|].
  destruct (free_text_wrapped (ready_world null_tracker) example_config Hi)
    as [_ [_ H]].
  apply (H [("issue_key", JStr "PROJ-1"); ("comment", JStr "Looks good")]
           (JStr "PROJ-1") (JStr "Looks good")); reflexivity.
Defined.

(** ** Transition by name *)

Section TransitionLoop.

Variables (arguments : dict) (requested : string).
Hypothesis requested_name : lookup arguments "transition_name" = Some (JStr requested).

(** The loop of the source finds what [first_match] specifies. *)
Lemma find_transition_id_first_match transitions :
  forallb is_transition transitions = true ->
  Dispatcher.find_transition_id arguments transitions
  = inr (match first_match requested transitions with
         | Some t => identifier t
         | None => JNull
         end).
Proof.
  induction transitions as [|t rest IH]; [reflexivity|].
  cbn [forallb]. intros H. apply andb_prop in H as [Ht Hrest].
  cbn [Dispatcher.find_transition_id first_match find].
  unfold same_name, display_name, identifier, is_transition in *.
  destruct (getitem t "name") as [e|[| | |nm| |]]; try discriminate.
  cbn [rbind lower]. unfold dict_getitem. rewrite requested_name. cbn [rbind lower].
  destruct (String.eqb (lower_str nm) (lower_str requested)).
  - destruct (getitem t "id"); [discriminate|reflexivity].
  - apply IH, Hrest.
Qed.

Lemma first_match_identifier transitions t :
  forallb is_transition transitions = true ->
  first_match requested transitions = Some t ->
  truthy (identifier t) = true.
Proof.
  intros Hall Hfind. apply find_some in Hfind as [Hin _].
  rewrite forallb_forall in Hall. specialize (Hall t Hin).
  unfold is_transition, identifier in *.
  destruct (getitem t "name") as [e|[| | |nm| |]]; try discriminate.
  destruct (getitem t "id"); [discriminate|assumption].
Qed.

End TransitionLoop.

Lemma transition_names_display transitions :
  forallb is_transition transitions = true ->
  Dispatcher.transition_names transitions
  = inr (map JStr (map display_name transitions)).
Proof.
  induction transitions as [|t rest IH]; [reflexivity|].
  cbn [forallb]. intros H. apply andb_prop in H as [Ht Hrest].
  cbn [Dispatcher.transition_names map]. rewrite (IH Hrest).
  unfold is_transition, display_name in *.
  destruct (getitem t "name") as [e|[| | |nm| |]]; try discriminate.
  reflexivity.
Qed.

(** C1: in an initialized world, with the transitions the tracker lists
    for the issue, the transition tool looks for the first transition
    whose display name equals the requested name once both are in lower
    case.  When there is one, exactly two requests are sent, the listing
    and one [POST] that carries that transition's [id], and the answer
    names the transition once the tracker accepts the write.  When there is
    none, the only request is the listing, and the answer is the failure
    text with the display names of all the available transitions. *)
Theorem transition_by_name w cfg arguments issue_key requested response transitions :
  initialized w cfg ->
  lookup arguments "issue_key" = Some issue_key ->
  lookup arguments "transition_name" = Some (JStr requested) ->
  let listing :=
    api_request cfg "GET" ("issue/" ++ str issue_key ++ "/transitions") [] in
  tracker w (sent w) listing = inr response ->
  get response "transitions" (JList []) = inr (JList transitions) ->
  forallb is_transition transitions = true ->
  let out := Dispatcher.handle_call_tool "jira_transition_issue" arguments w in
  match first_match requested transitions with
  | Some t =>
      let write :=
        api_request cfg "POST" ("issue/" ++ str issue_key ++ "/transitions")
          [("json", JDict [("transition", JDict [("id", identifier t)])])] in
      sent (snd out) = (sent w ++ [listing; write])%list
      /\ (forall answer,
             tracker w (sent w ++ [listing])%list write = inr answer ->
             fst out
             = inr [ {| type := "text";
                        text := "Issue " ++ str issue_key ++ " transitioned to "
                                  ++ requested |} ])
  | None =>
      out
      = (inr [ {| type := "text";
                  text := "Transition '" ++ requested
                            ++ "' not found. Available transitions: "
                            ++ repr (JList (map JStr (map display_name transitions)))
               |} ],
         with_request listing w)
  end.
Proof.
  intros Hi Hk Hn listing Hlist Hget Hall out. subst out.
  assert (Hi' : initialized (with_request listing w) cfg) by exact Hi.
  unfold Dispatcher.handle_call_tool, Dispatcher.dispatch.
  change (Dispatcher.select_branch "jira_transition_issue")
    with (Some Dispatcher.on_transition_issue).
  unfold Dispatcher.run_branch, try_except, bind, lift,
    Client.get_issue_transitions, Client.transition_issue, bind, lift, dict_getitem.
  rewrite Hk, Hn.
  rewrite (make_request_initialized _ _ _ _ _ Hi). fold listing. cbn zeta.
  rewrite Hlist, Hget. cbn [iter].
  rewrite (find_transition_id_first_match arguments requested Hn _ Hall).
  pose proof (first_match_identifier requested transitions) as Htruthy.
  destruct (first_match requested transitions) as [t|].
  - rewrite (Htruthy t Hall eq_refl). cbn [negb].
    rewrite (make_request_initialized _ _ _ _ _ Hi').
    cbn zeta. cbn [tracker sent with_request].
    destruct (tracker w (sent w ++ [listing])%list _) as [e|v].
    + split; [|discriminate].
      destruct (is_ClientError (exn_class e)), (is_Exception (exn_class e));
        cbn; rewrite <- app_assoc; reflexivity.
    + split; [cbn; rewrite <- app_assoc; reflexivity|].
      intros _ _. reflexivity.
  - cbn [truthy negb]. rewrite (transition_names_display _ Hall). reflexivity.
Qed.

Lemma transition_by_name_witness :
  initialized (ready_world transitions_tracker) example_config
  /\ (let out := Dispatcher.handle_call_tool "jira_transition_issue"
                   [("issue_key", JStr "PROJ-1");
                    ("transition_name", JStr "in progress")]
                   (ready_world transitions_tracker) in
      map req_method (sent (snd out)) = ["GET"; "POST"]
      /\ map req_kwargs (sent (snd out))
         = [[]; [("json", JDict [("transition", JDict [("id", JStr "11")])])]]
      /\ fst out
         = inr [ {| type := "text";
                    text := "Issue PROJ-1 transitioned to in progress" |} ])
  /\ (let out := Dispatcher.handle_call_tool "jira_transition_issue"
                   [("issue_key", JStr "PROJ-1"); ("transition_name", JStr "Closed")]
                   (ready_world transitions_tracker) in
      map req_method (sent (snd out)) = ["GET"]
      /\ fst out
         = inr [ {| type := "text";
                    text := "Transition 'Closed' not found. Available transitions: ['In Progress', 'Done']" |} ]).
Proof.
  assert (Hi : initialized (ready_world transitions_tracker) example_config)
    by (split; [reflexivity|discriminate]).
  split; [exact Hi|]. split.
  - destruct (transition_by_name (ready_world transitions_tracker) example_config
                [("issue_key", JStr "PROJ-1");
                 ("transition_name", JStr "in progress")]
                (JStr "PROJ-1") "in progress"
                (JDict [("transitions", JList example_transitions)])
                example_transitions Hi eq_refl eq_refl eq_refl eq_refl eq_refl)
      as [Hsent Htext].
    cbv zeta. rewrite Hsent, (Htext JNull eq_refl).
    repeat split; reflexivity.
  - pose proof (transition_by_name (ready_world transitions_tracker) example_config
                  [("issue_key", JStr "PROJ-1"); ("transition_name", JStr "Closed")]
                  (JStr "PROJ-1") "Closed"
                  (JDict [("transitions", JList example_transitions)])
                  example_transitions Hi eq_refl eq_refl eq_refl eq_refl eq_refl)
      as Hout.
    cbv zeta. cbv zeta in Hout.
    change (first_match "Closed" example_transitions) with (@None json) in Hout.
    cbv iota in Hout. rewrite Hout. split; reflexivity.
Defined.

(** ** Error containment *)

Lemma pure_safe_bind {A B} (r : result A) (k : A -> result B) :
  pure_safe r -> (forall a, pure_safe (k a)) -> pure_safe (rbind r k).
Proof. destruct r; cbn; auto. Qed.

Lemma pure_safe_dict_getitem d k : pure_safe (dict_getitem d k).
Proof. unfold dict_getitem. destruct (lookup d k); exact I || reflexivity. Qed.

Lemma pure_safe_getitem v k : pure_safe (getitem v k).
Proof.
  destruct v; cbn; try reflexivity. apply pure_safe_dict_getitem.
Qed.

Lemma pure_safe_get v k default : pure_safe (get v k default).
Proof. destruct v; cbn; reflexivity || exact I. Qed.

Lemma pure_safe_iter v : pure_safe (iter v).
Proof. destruct v; cbn; reflexivity || exact I. Qed.

Lemma pure_safe_lower v : pure_safe (lower v).
Proof. destruct v; cbn; reflexivity || exact I. Qed.

Lemma pure_safe_setitem_in v k1 k2 x : pure_safe (setitem_in v k1 k2 x).
Proof.
  destruct v; cbn; try reflexivity.
  destruct (lookup d k1) as [[]|]; cbn; reflexivity || exact I.
Qed.

Lemma pure_safe_join_items sep items n : pure_safe (join_items sep n items).
Proof.
  revert n. induction items as [|x r IH]; intros n; [exact I|].
  cbn [join_items]. destruct x; try reflexivity.
  destruct r; [exact I|]. apply pure_safe_bind; [apply IH|intros; exact I].
Qed.

Lemma pure_safe_str_join sep v : pure_safe (str_join sep v).
Proof.
  destruct v; cbn [str_join]; try reflexivity; try exact I;
    apply pure_safe_join_items.
Qed.

Ltac pure_safe_step :=
  first [ exact I
        | apply pure_safe_dict_getitem
        | apply pure_safe_getitem
        | apply pure_safe_get
        | apply pure_safe_iter
        | apply pure_safe_lower
        | apply pure_safe_setitem_in
        | apply pure_safe_str_join
        | apply pure_safe_bind; [|intros]
        | match goal with
          | |- pure_safe (if ?b then _ else _) => destruct b
          end ].

Lemma pure_safe_build_issue_data arguments :
  pure_safe (Dispatcher.build_issue_data arguments).
Proof. unfold Dispatcher.build_issue_data. repeat pure_safe_step. Qed.

Lemma pure_safe_build_update_data arguments :
  pure_safe (Dispatcher.build_update_data arguments).
Proof. rewrite build_update_data_fields. exact I. Qed.

Lemma pure_safe_find_transition_id arguments transitions :
  pure_safe (Dispatcher.find_transition_id arguments transitions).
Proof.
  induction transitions as [|t rest IH]; [exact I|].
  cbn [Dispatcher.find_transition_id]. repeat pure_safe_step. exact IH.
Qed.

Lemma pure_safe_transition_names transitions :
  pure_safe (Dispatcher.transition_names transitions).
Proof.
  induction transitions as [|t rest IH]; [exact I|].
  cbn [Dispatcher.transition_names]. repeat pure_safe_step. exact IH.
Qed.

Lemma safe_ret {A} (a : A) (Q : A -> Prop) : Q a -> safe (ret a) Q.
Proof. intros H w _. split; [reflexivity|exact H]. Qed.

Lemma safe_lift {A} (r : result A) : pure_safe r -> safe (lift r) (fun _ => True).
Proof. intros H w _. split; [reflexivity|]. destruct r; [exact H|exact I]. Qed.

Lemma safe_bind {A B} (c : M A) (k : A -> M B) (Q : B -> Prop) :
  safe c (fun _ => True) -> (forall a, safe (k a) Q) -> safe (bind c k) Q.
Proof.
  intros Hc Hk w Hw. unfold bind.
  destruct (Hc w Hw) as [Ht Hr]. destruct (c w) as [[e|a] w']; cbn in *.
  - split; assumption.
  - assert (Hw' : raises_exceptions_only (tracker w')) by (rewrite Ht; exact Hw).
    destruct (Hk a w' Hw') as [Ht' Hr']. split; [congruence|exact Hr'].
Qed.

Lemma safe_make_request method endpoint kwargs :
  safe (Client._make_request method endpoint kwargs) (fun _ => True).
Proof.
  intros w Hw. unfold Client._make_request, bind, get_jira_client.
  destruct (session (jira_client w)) as [s|]; [|split; reflexivity].
  destruct (config (jira_client w)) as [cfg|]; [|split; reflexivity].
  unfold try_except, session_request.
  destruct (tracker w (sent w) _) as [e|v] eqn:E; [|split; [reflexivity|exact I]].
  apply Hw in E.
  destruct (is_ClientError (exn_class e)); split; cbn; auto.
Qed.

Ltac safe_step :=
  first [ apply safe_make_request
        | apply safe_lift; repeat pure_safe_step
        | apply safe_ret
        | apply safe_bind; [|intros] ].

Lemma safe_search_issues jql fields max_results :
  safe (Client.search_issues jql fields max_results) (fun _ => True).
Proof. unfold Client.search_issues. repeat safe_step. Qed.

Lemma safe_branch b arguments :
  safe (Dispatcher.run_branch b arguments) one_text.
Proof.
  destruct b; unfold Dispatcher.run_branch, Client.get_projects,
    Client.get_project_details, Client.get_issue, Client.create_issue,
    Client.update_issue, Client.get_issue_transitions, Client.transition_issue,
    Client.add_comment, Client.get_epics, Client.get_issue_types,
    Client.get_project_details, Dispatcher.text_content, one_text;
    repeat first [ apply safe_search_issues
                 | apply pure_safe_build_issue_data
                 | apply pure_safe_build_update_data
                 | apply pure_safe_find_transition_id
                 | apply pure_safe_transition_names
                 | match goal with
                   | |- safe (if ?c then _ else _) _ => destruct c
                   | |- exists s, _ => eexists; reflexivity
                   | |- True => exact I
                   end
                 | safe_step ].
Qed.

Lemma safe_dispatch name arguments :
  safe (Dispatcher.dispatch name arguments) one_text.
Proof.
  unfold Dispatcher.dispatch. destruct (Dispatcher.select_branch name).
  - apply safe_branch.
  - apply safe_ret. eexists; reflexivity.
Qed.

(** C2: when the tracker fails only with exceptions that derive from
    [Exception], a call of any tool with any arguments returns a list with
    one text and raises nothing: the text is the one the selected branch
    returned, or [Error: ] followed by the message of the exception the
    branch raised. *)
Theorem call_tool_always_answers name arguments w :
  raises_exceptions_only (tracker w) ->
  exists s,
    fst (Dispatcher.handle_call_tool name arguments w)
    = inr [ {| type := "text"; text := s |} ]
    /\ match fst (Dispatcher.dispatch name arguments w) with
       | inl e => s = "Error: " ++ exn_str e
       | inr texts => texts = [ {| type := "text"; text := s |} ]
       end.
Proof.
  intros Hw. destruct (safe_dispatch name arguments w Hw) as [_ Hr].
  unfold Dispatcher.handle_call_tool, try_except.
  destruct (Dispatcher.dispatch name arguments w) as [[e|texts] w']; cbn in *.
  - rewrite Hr. cbn. eexists. split; reflexivity.
  - destruct Hr as [s ->]. exists s. split; reflexivity.
Qed.

Lemma call_tool_always_answers_witness :
  raises_exceptions_only (tracker (ready_world null_tracker))
  /\ fst (Dispatcher.handle_call_tool "jira_get_issue" []
            (ready_world null_tracker))
     = inr [ {| type := "text"; text := "Error: 'issue_key'" |} ].
Proof.
  assert (H : raises_exceptions_only (tracker (ready_world null_tracker)))
    by (intros history rq e; discriminate).
  split; [exact H|].
  destruct (call_tool_always_answers "jira_get_issue" []
              (ready_world null_tracker) H) as [s [Hs He]].
  rewrite Hs. cbn in He. rewrite He. reflexivity.
Defined.

(** * Further properties of the client, the dispatcher and the entry point *)

(** ** Initialization *)

Lemma encode_ascii_all s : all_ascii s = true -> Client.encode_ascii s = inr s.
Proof.
  induction s as [|c s IH]; [reflexivity|].
  cbn [all_ascii Client.encode_ascii]. intros H.
  apply andb_prop in H as [Hc Hs]. now rewrite Hc, (IH Hs).
Qed.

Lemma encode_ascii_some s :
  all_ascii s = false ->
  Client.encode_ascii s
  = inl (Exn UnicodeEncodeError "'ascii' codec can't encode character").
Proof.
  induction s as [|c s IH]; [discriminate|].
  cbn [all_ascii Client.encode_ascii]. intros H.
  destruct (Nat.ltb (nat_of_ascii c) 128); [|reflexivity].
  cbn in H. now rewrite (IH H).
Qed.

Lemma initialize_ascii cfg w :
  all_ascii (username cfg ++ ":" ++ api_token cfg) = true ->
  Client.initialize cfg w
  = (inr tt,
     with_line INFO ("Initialized JIRA client for " ++ base_url cfg)
       {| jira_client :=
            {| config := Some cfg;
               session :=
                 Some {| headers :=
                           [("Authorization",
                             "Basic "
                               ++ Base64.b64encode
                                    (username cfg ++ ":" ++ api_token cfg));
                            ("Content-Type", "application/json");
                            ("Accept", "application/json")];
                         timeout_total := 30;
                         closed := false |} |};
          tracker := tracker w;
          sent := sent w;
          logged := logged w |}).
Proof.
  intros H.
  unfold Client.initialize, bind, lift, get_jira_client, set_jira_client, logger.
  cbv beta iota zeta. rewrite (encode_ascii_all _ H). reflexivity.
Qed.

(** X1: with credentials in ASCII, [initialize] returns normally and leaves
    an initialized client whose session has the three headers of the
    source, the authorization being [Basic] and the Base64 text of
    [username:api_token], and a timeout of 30; it sends no request and logs
    one line. *)
Theorem initialize_ready cfg w :
  all_ascii (username cfg ++ ":" ++ api_token cfg) = true ->
  let out := Client.initialize cfg w in
  fst out = inr tt
  /\ initialized (snd out) cfg
  /\ session (jira_client (snd out))
     = Some {| headers :=
                 [("Authorization",
                   "Basic " ++ Base64.b64encode (username cfg ++ ":" ++ api_token cfg));
                  ("Content-Type", "application/json");
                  ("Accept", "application/json")];
               timeout_total := 30;
               closed := false |}
  /\ sent (snd out) = sent w
  /\ logged (snd out)
     = (logged w
          ++ [(INFO, ("Initialized JIRA client for " ++ base_url cfg)%string)])%list.
Proof.
  intros H out. subst out. rewrite (initialize_ascii cfg w H).
  repeat split; try reflexivity. discriminate.
Qed.

Lemma initialize_ready_witness :
  all_ascii (username example_config ++ ":" ++ api_token example_config) = true
  /\ initialized (snd (Client.initialize example_config (fresh_world null_tracker)))
       example_config.
Proof.
  split; [reflexivity|].
  apply (initialize_ready example_config (fresh_world null_tracker)).
  reflexivity.
Defined.

(** X2: with a character outside ASCII in the credentials, [initialize]
    raises [UnicodeEncodeError] after it has stored the configuration and
    before it creates a session: the configuration is the new one, the
    session is what it was, nothing is sent or logged.  A client that had
    no session is still not initialized. *)
Theorem initialize_non_ascii cfg w :
  all_ascii (username cfg ++ ":" ++ api_token cfg) = false ->
  let out := Client.initialize cfg w in
  (exists e, fst out = inl e /\ exn_class e = UnicodeEncodeError)
  /\ config (jira_client (snd out)) = Some cfg
  /\ session (jira_client (snd out)) = session (jira_client w)
  /\ sent (snd out) = sent w
  /\ logged (snd out) = logged w
  /\ (session (jira_client w) = None -> uninitialized (snd out)).
Proof.
  intros H out. subst out.
  unfold Client.initialize, bind, lift, get_jira_client, set_jira_client, logger.
  cbv beta iota zeta. rewrite (encode_ascii_some _ H). cbn.
  repeat split; try reflexivity.
  - eexists. split; reflexivity.
  - intros Hs. left. exact Hs.
Qed.

Lemma initialize_non_ascii_witness :
  all_ascii (String "233" "ric" ++ ":" ++ "token") = false
  /\ uninitialized
       (snd (Client.initialize
               {| base_url := "https://example.atlassian.net";
                  username := String "233" "ric";
                  api_token := "token";
                  default_project_key := "" |}
               (fresh_world null_tracker))).
Proof.
  split; [reflexivity|].
  apply (initialize_non_ascii
           {| base_url := "https://example.atlassian.net";
              username := String "233" "ric";
              api_token := "token";
              default_project_key := "" |} (fresh_world null_tracker));
    reflexivity.
Defined.

(** ** What a call does to the world *)

Lemma appends_ret {A} (a : A) : appends 0 0 (ret a).
Proof.
  intros w. cbn. repeat split; try reflexivity.
  - exists []. rewrite List.app_nil_r. repeat split; cbn; lia.
  - exists []. now rewrite List.app_nil_r.
Qed.

Lemma appends_raise {A} e : appends 0 0 (@raise A e).
Proof.
  intros w. cbn. repeat split; try reflexivity.
  - exists []. rewrite List.app_nil_r. repeat split; cbn; lia.
  - exists []. now rewrite List.app_nil_r.
Qed.

Lemma appends_lift {A} (r : result A) : appends 0 0 (lift r).
Proof.
  intros w. cbn. repeat split; try reflexivity.
  - exists []. rewrite List.app_nil_r. repeat split; cbn; lia.
  - exists []. now rewrite List.app_nil_r.
Qed.

Lemma appends_logger level line : appends 0 0 (logger level line).
Proof.
  intros w. cbn. repeat split; try reflexivity.
  - exists []. rewrite List.app_nil_r. repeat split; cbn; lia.
  - eexists. reflexivity.
Qed.

Lemma appends_weaken {A} n m n' m' (c : M A) :
  n <= n' -> m <= m' -> appends n m c -> appends n' m' c.
Proof.
  intros Hn Hm H w. destruct (H w) as [Hc [Ht [[reqs [Hs [Hl Hw]]] Hlog]]].
  repeat split; try assumption. exists reqs. repeat split; [assumption|lia|lia].
Qed.

Lemma appends_step {A B} n m n' m' (c : M A) (k : result A -> M B) :
  appends n m c ->
  (forall r, appends n' m' (k r)) ->
  appends (n + n') (m + m') (fun w => k (fst (c w)) (snd (c w))).
Proof.
  intros Hc Hk w.
  destruct (Hc w) as [Hc1 [Ht1 [[reqs1 [Hs1 [Hl1 Hw1]]] [lines1 Hlog1]]]].
  destruct (Hk (fst (c w)) (snd (c w)))
    as [Hc2 [Ht2 [[reqs2 [Hs2 [Hl2 Hw2]]] [lines2 Hlog2]]]].
  cbn beta. repeat split.
  - congruence.
  - congruence.
  - exists (reqs1 ++ reqs2)%list. rewrite Hs2, Hs1, <- List.app_assoc.
    split; [reflexivity|].
    rewrite filter_app, !length_app. lia.
  - exists (lines1 ++ lines2)%list. now rewrite Hlog2, Hlog1, <- List.app_assoc.
Qed.

Lemma appends_bind {A B} n m n' m' (c : M A) (k : A -> M B) :
  appends n m c ->
  (forall a, appends n' m' (k a)) ->
  appends (n + n') (m + m') (bind c k).
Proof.
  intros Hc Hk.
  pose proof (appends_step n m n' m' c
                (fun r => match r with inr a => k a | inl e => raise e end) Hc)
    as H.
  assert (Hr : forall r : result A,
             appends n' m' match r with inr a => k a | inl e => raise e end).
  { intros [e|a]; [|apply Hk].
    apply (appends_weaken 0 0); [lia|lia|apply appends_raise]. }
  specialize (H Hr). intros w. specialize (H w). unfold bind.
  cbn beta in H. revert H. destruct (c w) as [[e|a] w']; intros H; exact H.
Qed.

Lemma appends_try_except {A} n m n' m' (body : M A) catches handler :
  appends n m body ->
  (forall e, appends n' m' (handler e)) ->
  appends (n + n') (m + m') (try_except body catches handler).
Proof.
  intros Hb Hh.
  pose proof (appends_step n m n' m' body
                (fun r => match r with
                          | inr a => ret a
                          | inl e => if catches (exn_class e) then handler e
                                     else raise e
                          end) Hb) as H.
  assert (Hr : forall r : result A,
             appends n' m'
               match r with
               | inr a => ret a
               | inl e => if catches (exn_class e) then handler e else raise e
               end).
  { intros [e|a].
    - destruct (catches (exn_class e)); [apply Hh|].
      apply (appends_weaken 0 0); [lia|lia|apply appends_raise].
    - apply (appends_weaken 0 0); [lia|lia|apply appends_ret]. }
  specialize (H Hr). intros w. specialize (H w). unfold try_except.
  cbn beta in H. revert H.
  destruct (body w) as [[e|a] w']; cbn [fst snd];
    try destruct (catches (exn_class e)); intros H; exact H.
Qed.

Lemma appends_session_request method u kwargs :
  appends 1 (if String.eqb method "GET" then 0 else 1)
    (session_request method u kwargs).
Proof.
  intros w. cbn. repeat split; try reflexivity.
  - eexists. split; [reflexivity|]. cbn. split; [lia|].
    unfold is_write. cbn. destruct (String.eqb method "GET"); cbn; lia.
  - exists []. now rewrite List.app_nil_r.
Qed.

Lemma appends_make_request method endpoint kwargs :
  appends 1 (if String.eqb method "GET" then 0 else 1)
    (Client._make_request method endpoint kwargs).
Proof.
  unfold Client._make_request.
  apply (appends_weaken (0 + 1) (0 + (if String.eqb method "GET" then 0 else 1)));
    [lia|lia|].
  apply appends_bind.
  - intros w. cbn. repeat split; try reflexivity.
    + exists []. rewrite List.app_nil_r. repeat split; cbn; lia.
    + exists []. now rewrite List.app_nil_r.
  - intros self.
    destruct (session self), (config self);
      try (apply (appends_weaken 0 0); [lia|lia|apply appends_raise]).
    apply (appends_weaken (1 + 0) ((if String.eqb method "GET" then 0 else 1) + 0));
      [lia|lia|].
    apply appends_try_except; [apply appends_session_request|].
    intros e. apply (appends_bind 0 0 0 0); [apply appends_logger|].
    intros _. apply appends_raise.
Qed.

Ltac appends_auto :=
  repeat first
    [ apply appends_ret
    | apply appends_lift
    | apply appends_raise
    | apply appends_logger
    | apply appends_make_request
    | eapply appends_bind; [|intros] ].

Lemma appends_search_issues jql fields max_results :
  appends 1 0 (Client.search_issues jql fields max_results).
Proof. unfold Client.search_issues. eapply appends_weaken; [| |appends_auto]; cbn; lia. Qed.

Lemma appends_branch b arguments :
  appends 2 1 (Dispatcher.run_branch b arguments).
Proof.
  destruct b; unfold Dispatcher.run_branch, Client.get_projects,
    Client.get_project_details, Client.get_issue, Client.create_issue,
    Client.update_issue, Client.get_issue_transitions, Client.transition_issue,
    Client.add_comment, Client.get_epics, Client.get_issue_types,
    Client.get_project_details;
    try (eapply appends_weaken;
         [| |repeat first [apply appends_search_issues | appends_auto]];
         cbn; lia).
  (* the transition branch: the two arms of its [if] differ *)
  apply (appends_weaken (0 + (1 + (0 + (0 + (0 + 1))))) (0 + (0 + (0 + (0 + (0 + 1))))));
    [lia|lia|].
  apply appends_bind; [apply appends_lift|]. intros issue_key.
  apply appends_bind.
  { eapply appends_weaken; [| |appends_auto]; cbn; lia. }
  intros transitions.
  apply appends_bind; [apply appends_lift|]. intros items.
  apply appends_bind; [apply appends_lift|]. intros transition_id.
  destruct (negb (truthy transition_id)).
  - eapply appends_weaken; [| |appends_auto]; cbn; lia.
  - eapply appends_weaken; [| |appends_auto]; cbn; lia.
Qed.

(** X4: whatever the tool name and the arguments, a call leaves the client
    (configuration and session) and the tracker as they were, only adds to
    the requests and to the log, and sends at most two requests, at most
    one of which is not a [GET]. *)
Theorem call_tool_appends name arguments w :
  let out := Dispatcher.handle_call_tool name arguments w in
  jira_client (snd out) = jira_client w
  /\ tracker (snd out) = tracker w
  /\ (exists reqs,
        sent (snd out) = (sent w ++ reqs)%list
        /\ List.length reqs <= 2
        /\ List.length (filter is_write reqs) <= 1)
  /\ exists lines, logged (snd out) = (logged w ++ lines)%list.
Proof.
  apply (appends_weaken (2 + 0) (1 + 0) 2 1); [lia|lia|].
  unfold Dispatcher.handle_call_tool. apply appends_try_except.
  - unfold Dispatcher.dispatch. destruct (Dispatcher.select_branch name).
    + apply appends_branch.
    + apply (appends_weaken 0 0); [lia|lia|apply appends_ret].
  - intros e. apply (appends_bind 0 0 0 0); [apply appends_logger|].
    intros _. apply appends_ret.
Qed.

(** ** Arguments and the catalog's schemas *)

Ltac each_tool H :=
  cbn in H;
  repeat (destruct H as [H | H]; [subst|]);
  try contradiction.

Lemma find_transition_id_agree a b transitions :
  lookup a "transition_name" = lookup b "transition_name" ->
  Dispatcher.find_transition_id a transitions
  = Dispatcher.find_transition_id b transitions.
Proof.
  intros H. induction transitions as [|t r IH]; [reflexivity|].
  cbn [Dispatcher.find_transition_id]. unfold dict_getitem. rewrite H, IH.
  reflexivity.
Qed.

Lemma bind_pointwise {A B} (c : M A) (k k' : A -> M B) w :
  (forall a w', k a w' = k' a w') -> bind c k w = bind c k' w.
Proof. intros H. unfold bind. destruct (c w) as [[e|a] w']; [reflexivity|apply H]. Qed.

Lemma run_branch_agree tool b a a' w :
  In tool Dispatcher.handle_list_tools ->
  Dispatcher.select_branch (name tool) = Some b ->
  agree_on (schema_properties tool) a a' ->
  Dispatcher.run_branch b a w = Dispatcher.run_branch b a' w.
Proof.
  intros Hin Hb Hag. each_tool Hin; cbn in Hb; injection Hb as <-;
    unfold agree_on in Hag; cbn in Hag;
    unfold Dispatcher.run_branch, Dispatcher.build_issue_data,
      Dispatcher.build_update_data, dict_getitem, dict_get, contains;
    repeat match goal with
           | |- context [lookup a ?k] =>
               rewrite (Hag k) by (cbn; tauto)
           end;
    try reflexivity.
  do 3 (apply bind_pointwise; intros).
  rewrite (find_transition_id_agree a a') by (apply Hag; cbn; tauto).
  reflexivity.
Qed.

(** X5: a call reads only the arguments that the tool's schema declares:
    two argument mappings that give the same value to each declared
    property get the same answer and leave the same world. *)
Theorem call_tool_reads_declared tool arguments arguments' w :
  In tool Dispatcher.handle_list_tools ->
  agree_on (schema_properties tool) arguments arguments' ->
  Dispatcher.handle_call_tool (name tool) arguments w
  = Dispatcher.handle_call_tool (name tool) arguments' w.
Proof.
  intros Hin Hag.
  assert (Hname : In (name tool) catalog_names) by (apply in_map, Hin).
  apply select_branch_catalog in Hname as [b Hb].
  unfold Dispatcher.handle_call_tool, Dispatcher.dispatch. rewrite Hb.
  unfold try_except.
  now rewrite (run_branch_agree tool b arguments arguments' w Hin Hb Hag).
Qed.

Ltac split_lookups_in H arguments :=
  repeat match type of H with
         | context [lookup arguments ?k] =>
             let E := fresh "E" in
             destruct (lookup arguments k) eqn:E
         end.

(** X6: when the mapping lacks an argument that the tool's schema
    requires, the call answers [Error: ] and the quoted name of the first
    required argument that is missing, logs that line, and sends no
    request.  The one exception is [transition_name], which the source
    reads only after it has listed the transitions. *)
Theorem missing_required_argument tool arguments k w :
  In tool Dispatcher.handle_list_tools ->
  first_missing arguments (schema_required tool) = Some k ->
  (name tool = "jira_transition_issue" -> k <> "transition_name") ->
  Dispatcher.handle_call_tool (name tool) arguments w
  = (inr [ {| type := "text"; text := "Error: " ++ repr_str k |} ],
     with_line ERROR
       ("Error handling tool call " ++ name tool ++ ": " ++ repr_str k) w).
Proof.
  intros Hin Hk Hnot. each_tool Hin;
    match type of Hk with
    | context [schema_required ?t] =>
        let r := eval vm_compute in (schema_required t) in
        change (schema_required t) with r in Hk
    end;
    cbn [first_missing] in Hk; unfold contains in Hk;
    cbn [name] in *;
    split_lookups_in Hk arguments; try discriminate; injection Hk as <-;
    try (exfalso; apply (Hnot eq_refl); reflexivity);
    unfold Dispatcher.handle_call_tool, Dispatcher.dispatch;
    match goal with
    | |- context [Dispatcher.select_branch ?n] =>
        let r := eval vm_compute in (Dispatcher.select_branch n) in
        change (Dispatcher.select_branch n) with r
    end;
    unfold Dispatcher.run_branch, try_except, bind, lift,
      Dispatcher.build_issue_data, dict_getitem, contains;
    rewrite ?build_update_data_fields;
    repeat match goal with
           | E : lookup arguments _ = _ |- _ => rewrite E; clear E
           end;
    reflexivity.
Qed.


Lemma tool_at_catalog i : i < 11 -> In (tool_at i) Dispatcher.handle_list_tools.
Proof. intros H. apply nth_In. exact H. Qed.

Lemma call_tool_reads_declared_witness :
  In (tool_at 3) Dispatcher.handle_list_tools
  /\ agree_on (schema_properties (tool_at 3))
       [("issue_key", JStr "PROJ-1")]
       [("verbose", JBool true); ("issue_key", JStr "PROJ-1")]
  /\ Dispatcher.handle_call_tool "jira_get_issue" [("issue_key", JStr "PROJ-1")]
       (ready_world null_tracker)
     = Dispatcher.handle_call_tool "jira_get_issue"
         [("verbose", JBool true); ("issue_key", JStr "PROJ-1")]
         (ready_world null_tracker).
Proof.
  assert (Hin : In (tool_at 3) Dispatcher.handle_list_tools)
    by (apply tool_at_catalog; lia).
  assert (Hag : agree_on (schema_properties (tool_at 3))
                  [("issue_key", JStr "PROJ-1")]
                  [("verbose", JBool true); ("issue_key", JStr "PROJ-1")]).
  { intros k Hk. vm_compute in Hk. destruct Hk as [<-|[]]. reflexivity. }
  split; [exact Hin|]. split; [exact Hag|].
  exact (call_tool_reads_declared (tool_at 3) _ _ (ready_world null_tracker)
           Hin Hag).
Defined.

Lemma missing_required_argument_witness :
  In (tool_at 8) Dispatcher.handle_list_tools
  /\ first_missing [("issue_key", JStr "PROJ-1")] (schema_required (tool_at 8))
     = Some "comment"
  /\ fst (Dispatcher.handle_call_tool "jira_add_comment"
            [("issue_key", JStr "PROJ-1")] (ready_world null_tracker))
     = inr [ {| type := "text"; text := "Error: 'comment'" |} ].
Proof.
  assert (Hin : In (tool_at 8) Dispatcher.handle_list_tools)
    by (apply tool_at_catalog; lia).
  split; [exact Hin|]. split; [reflexivity|].
  assert (Hnot : name (tool_at 8) = "jira_transition_issue" ->
                 "comment" <> "transition_name") by (intros _; discriminate).
  pose proof (missing_required_argument (tool_at 8) [("issue_key", JStr "PROJ-1")]
                "comment" (ready_world null_tracker) Hin eq_refl Hnot) as H.
  apply (f_equal fst) in H. exact H.
Defined.

(** X8: on a client that was not initialized, every tool of the catalog,
    called with the arguments its schema requires (and, for the search, a
    [fields] argument of its declared type), answers
    [Error: JIRA client not initialized], logs that line and sends no
    request. *)
Theorem uninitialized_call tool arguments w :
  In tool Dispatcher.handle_list_tools ->
  uninitialized w ->
  first_missing arguments (schema_required tool) = None ->
  optional_str_list (dict_get arguments "fields" JNull) ->
  Dispatcher.handle_call_tool (name tool) arguments w
  = (inr [ {| type := "text"; text := "Error: JIRA client not initialized" |} ],
     with_line ERROR
       ("Error handling tool call " ++ name tool
          ++ ": JIRA client not initialized") w).
Proof.
  intros Hin Hw Hk Hf.
  destruct (search_fields_param _ Hf) as [p Hp].
  each_tool Hin;
    match type of Hk with
    | context [schema_required ?t] =>
        let r := eval vm_compute in (schema_required t) in
        change (schema_required t) with r in Hk
    end;
    cbn [first_missing] in Hk; unfold contains in Hk;
    cbn [name];
    split_lookups_in Hk arguments; try discriminate; clear Hk;
    unfold Dispatcher.handle_call_tool, Dispatcher.dispatch;
    match goal with
    | |- context [Dispatcher.select_branch ?n] =>
        let r := eval vm_compute in (Dispatcher.select_branch n) in
        change (Dispatcher.select_branch n) with r
    end;
    unfold Dispatcher.run_branch, try_except, bind, lift, dict_getitem,
      Client.get_projects, Client.get_project_details, Client.get_issue,
      Client.create_issue, Client.update_issue, Client.get_issue_transitions,
      Client.add_comment, Client.get_epics, Client.get_issue_types,
      Client.search_issues, Client.get_project_details, bind, lift;
    rewrite ?build_update_data_fields;
    try erewrite build_issue_data_fields by eassumption;
    repeat match goal with
           | E : lookup arguments _ = _ |- _ => rewrite E; clear E
           end;
    rewrite ?Hp; cbn [truthy];
    rewrite ?(make_request_uninitialized _ _ _ _ Hw);
    reflexivity.
Qed.

Lemma uninitialized_call_witness :
  In (tool_at 6) Dispatcher.handle_list_tools
  /\ uninitialized (fresh_world null_tracker)
  /\ fst (Dispatcher.handle_call_tool "jira_transition_issue"
            [("issue_key", JStr "PROJ-1"); ("transition_name", JStr "Done")]
            (fresh_world null_tracker))
     = inr [ {| type := "text"; text := "Error: JIRA client not initialized" |} ].
Proof.
  assert (Hin : In (tool_at 6) Dispatcher.handle_list_tools)
    by (apply tool_at_catalog; lia).
  assert (Hw : uninitialized (fresh_world null_tracker)) by (left; reflexivity).
  split; [exact Hin|]. split; [exact Hw|].
  pose proof (uninitialized_call (tool_at 6)
                [("issue_key", JStr "PROJ-1"); ("transition_name", JStr "Done")]
                (fresh_world null_tracker) Hin Hw eq_refl (or_introl eq_refl))
    as H.
  apply (f_equal fst) in H. exact H.
Defined.

(** ** The tools that read *)

Ltac enter_branch :=
  unfold Dispatcher.handle_call_tool, Dispatcher.dispatch;
  match goal with
  | |- context [Dispatcher.select_branch ?n] =>
      let r := eval vm_compute in (Dispatcher.select_branch n) in
      change (Dispatcher.select_branch n) with r
  end;
  unfold Dispatcher.run_branch, try_except, bind, lift, dict_getitem,
    Client.get_projects, Client.get_project_details, Client.get_issue,
    Client.create_issue, Client.update_issue, Client.get_issue_transitions,
    Client.add_comment, Client.get_epics, Client.get_issue_types,
    Client.search_issues, Client.get_project_details, bind, lift.

(** X9: on an initialized client the tools [jira_get_projects],
    [jira_get_project_details] and [jira_get_issue] send one [GET], on
    [project], [project/<key>] and [issue/<key>], and answer with the
    pretty-printed body the tracker returned. *)
Theorem read_tools_pretty_print w cfg arguments :
  initialized w cfg ->
  (forall response,
      let rq := api_request cfg "GET" "project" [] in
      tracker w (sent w) rq = inr response ->
      Dispatcher.handle_call_tool "jira_get_projects" arguments w
      = (inr [ {| type := "text"; text := Json.dumps response |} ],
         with_request rq w))
  /\ (forall project_key response,
         lookup arguments "project_key" = Some project_key ->
         let rq := api_request cfg "GET" ("project/" ++ str project_key) [] in
         tracker w (sent w) rq = inr response ->
         Dispatcher.handle_call_tool "jira_get_project_details" arguments w
         = (inr [ {| type := "text"; text := Json.dumps response |} ],
            with_request rq w))
  /\ (forall issue_key response,
         lookup arguments "issue_key" = Some issue_key ->
         let rq := api_request cfg "GET" ("issue/" ++ str issue_key) [] in
         tracker w (sent w) rq = inr response ->
         Dispatcher.handle_call_tool "jira_get_issue" arguments w
         = (inr [ {| type := "text"; text := Json.dumps response |} ],
            with_request rq w)).
Proof.
  intros Hi. repeat split.
  - intros response rq Ht. enter_branch.
    rewrite (make_request_initialized _ _ _ _ _ Hi). cbn zeta. fold rq.
    now rewrite Ht.
  - intros project_key response Hk rq Ht. enter_branch. rewrite Hk.
    rewrite (make_request_initialized _ _ _ _ _ Hi). cbn zeta. fold rq.
    now rewrite Ht.
  - intros issue_key response Hk rq Ht. enter_branch. rewrite Hk.
    rewrite (make_request_initialized _ _ _ _ _ Hi). cbn zeta. fold rq.
    now rewrite Ht.
Qed.

Lemma read_tools_pretty_print_witness :
  initialized (ready_world search_tracker) example_config
  /\ fst (Dispatcher.handle_call_tool "jira_get_issue"
            [("issue_key", JStr "PROJ-1")] (ready_world search_tracker))
     = inr [ {| type := "text"; text := Json.dumps example_search_result |} ].
Proof.
  assert (Hi : initialized (ready_world search_tracker) example_config)
    by (split; [reflexivity|discriminate]).
  split; [exact Hi|].
  destruct (read_tools_pretty_print (ready_world search_tracker) example_config
              [("issue_key", JStr "PROJ-1")] Hi) as [_ [_ H]].
  now rewrite (H (JStr "PROJ-1") example_search_result eq_refl eq_refl).
Defined.

(** X10: [jira_get_available_transitions] and [jira_get_issue_types]
    answer with the member [transitions] (or [issueTypes]) of the object
    the tracker returned, and with the empty list [[]] when the object has
    no such member.  When the tracker returned something that is not an
    object, the answer is the error text of the failed [get], after the one
    request. *)
Theorem member_tools w cfg arguments response :
  initialized w cfg ->
  (forall issue_key,
      lookup arguments "issue_key" = Some issue_key ->
      let rq := api_request cfg "GET"
                  ("issue/" ++ str issue_key ++ "/transitions") [] in
      tracker w (sent w) rq = inr response ->
      let out := Dispatcher.handle_call_tool "jira_get_available_transitions"
                   arguments w in
      match response with
      | JDict d =>
          out = (inr [ {| type := "text";
                          text := Json.dumps (dict_get d "transitions" (JList []))
                       |} ],
                 with_request rq w)
          /\ (lookup d "transitions" = None ->
              fst out = inr [ {| type := "text"; text := "[]" |} ])
      | _ =>
          fst out
          = inr [ {| type := "text";
                     text := "Error: '" ++ type_name response
                               ++ "' object has no attribute 'get'" |} ]
          /\ sent (snd out) = (sent w ++ [rq])%list
      end)
  /\ (forall project_key,
         lookup arguments "project_key" = Some project_key ->
         let rq := api_request cfg "GET" ("project/" ++ str project_key) [] in
         tracker w (sent w) rq = inr response ->
         let out := Dispatcher.handle_call_tool "jira_get_issue_types"
                      arguments w in
         match response with
         | JDict d =>
             out = (inr [ {| type := "text";
                             text := Json.dumps (dict_get d "issueTypes" (JList []))
                          |} ],
                    with_request rq w)
             /\ (lookup d "issueTypes" = None ->
                 fst out = inr [ {| type := "text"; text := "[]" |} ])
         | _ =>
             fst out
             = inr [ {| type := "text";
                        text := "Error: '" ++ type_name response
                                  ++ "' object has no attribute 'get'" |} ]
             /\ sent (snd out) = (sent w ++ [rq])%list
         end).
Proof.
  intros Hi. split.
  - intros issue_key Hk rq Ht out. subst out. enter_branch. rewrite Hk.
    rewrite (make_request_initialized _ _ _ _ _ Hi). cbn zeta. fold rq.
    rewrite Ht. destruct response; cbn [get type_name]; try (split; reflexivity).
    split; [reflexivity|]. intros Hm. unfold dict_get. rewrite Hm. reflexivity.
  - intros project_key Hk rq Ht out. subst out. enter_branch. rewrite Hk.
    rewrite (make_request_initialized _ _ _ _ _ Hi). cbn zeta. fold rq.
    rewrite Ht. destruct response; cbn [get type_name]; try (split; reflexivity).
    split; [reflexivity|]. intros Hm. unfold dict_get. rewrite Hm. reflexivity.
Qed.

Lemma member_tools_witness :
  initialized (ready_world null_tracker) example_config
  /\ fst (Dispatcher.handle_call_tool "jira_get_issue_types"
            [("project_key", JStr "PROJ")] (ready_world null_tracker))
     = inr [ {| type := "text";
                text := "Error: 'NoneType' object has no attribute 'get'" |} ].
Proof.
  assert (Hi : initialized (ready_world null_tracker) example_config)
    by (split; [reflexivity|discriminate]).
  split; [exact Hi|].
  destruct (member_tools (ready_world null_tracker) example_config
              [("project_key", JStr "PROJ")] JNull Hi) as [_ H].
  destruct (H (JStr "PROJ") eq_refl eq_refl) as [Hf _]. exact Hf.
Defined.


(** X11: [jira_get_epics] sends one search whose query is
    [project = "<key>" AND issuetype = Epic ORDER BY created DESC], with at
    most 50 results and all fields, and answers with the member [issues]
    of the object the tracker returned (the empty list when it has
    none). *)
Theorem epics_tool w cfg arguments project_key :
  initialized w cfg ->
  lookup arguments "project_key" = Some project_key ->
  let rq := search_request cfg (JStr (epics_jql project_key)) (JInt 50) "*all" in
  let out := Dispatcher.handle_call_tool "jira_get_epics" arguments w in
  sent (snd out) = (sent w ++ [rq])%list
  /\ (forall d,
         tracker w (sent w) rq = inr (JDict d) ->
         fst out
         = inr [ {| type := "text";
                    text := Json.dumps (dict_get d "issues" (JList [])) |} ]).
Proof.
  intros Hi Hk rq out. subst out. enter_branch. rewrite Hk. cbn [truthy].
  rewrite (make_request_initialized _ _ _ _ _ Hi). cbn zeta.
  fold (epics_jql project_key).
  change (api_request cfg "GET" "search" _) with rq.
  destruct (tracker w (sent w) rq) as [e|v].
  - split; [|discriminate].
    destruct (is_ClientError (exn_class e)), (is_Exception (exn_class e));
      reflexivity.
  - split.
    + destruct v; cbn [get]; reflexivity.
    + intros d [= ->]. reflexivity.
Qed.

Lemma epics_tool_witness :
  initialized (ready_world search_tracker) example_config
  /\ map req_kwargs
       (sent (snd (Dispatcher.handle_call_tool "jira_get_epics"
                     [("project_key", JStr "PROJ")] (ready_world search_tracker))))
     = [[("params",
          JDict [("jql",
                  JStr ("project = " ++ String dquote "PROJ"
                          ++ String dquote
                               " AND issuetype = Epic ORDER BY created DESC"));
                 ("maxResults", JInt 50);
                 ("fields", JStr "*all")])]].
Proof.
  assert (Hi : initialized (ready_world search_tracker) example_config)
    by (split; [reflexivity|discriminate]).
  split; [exact Hi|].
  destruct (epics_tool (ready_world search_tracker) example_config
              [("project_key", JStr "PROJ")] (JStr "PROJ") Hi eq_refl) as [H _].
  rewrite H. reflexivity.
Defined.

(** X12: the search tool sends the caller's query, the caller's
    [max_results] or 50 when there is none, and as fields [*all] when the
    [fields] argument is missing or is false as a condition (so also for
    the empty list), or the names joined with commas when it is a list of
    names that is not empty. *)
Theorem search_tool_request w cfg arguments jql :
  initialized w cfg ->
  lookup arguments "jql" = Some jql ->
  let fields := dict_get arguments "fields" JNull in
  let max_results := dict_get arguments "max_results" (JInt 50) in
  let out := Dispatcher.handle_call_tool "jira_search_issues" arguments w in
  (truthy fields = false ->
   sent (snd out) = (sent w ++ [search_request cfg jql max_results "*all"])%list)
  /\ (forall names,
         fields = JList (map JStr names) ->
         names <> [] ->
         sent (snd out)
         = (sent w ++ [search_request cfg jql max_results (join "," names)])%list).
Proof.
  intros Hi Hk fields max_results out. subst out.
  assert (Hrun : forall p,
             (if truthy fields
              then rbind (str_join "," fields) (fun s => inr (JStr s))
              else inr (JStr "*all")) = inr (JStr p) ->
             sent (snd (Dispatcher.handle_call_tool "jira_search_issues"
                          arguments w))
             = (sent w ++ [search_request cfg jql max_results p])%list).
  { intros p Hp. enter_branch. rewrite Hk. fold fields. rewrite Hp.
    rewrite (make_request_initialized _ _ _ _ _ Hi). cbn zeta.
    fold max_results.
    change (api_request cfg "GET" "search" _)
      with (search_request cfg jql max_results p).
    destruct (tracker w (sent w) _) as [e|v]; [|reflexivity].
    destruct (is_ClientError (exn_class e)), (is_Exception (exn_class e));
      reflexivity. }
  split.
  - intros Hf. apply Hrun. now rewrite Hf.
  - intros names Hf Hne. apply Hrun. rewrite Hf.
    destruct names as [|n r]; [congruence|].
    cbn [map truthy]. cbn [str_join].
    change (JStr n :: map JStr r) with (map JStr (n :: r)).
    now rewrite join_items_strs.
Qed.

Lemma search_tool_request_witness :
  initialized (ready_world null_tracker) example_config
  /\ sent (snd (Dispatcher.handle_call_tool "jira_search_issues"
                  [("jql", JStr "project = PROJ"); ("fields", JList [])]
                  (ready_world null_tracker)))
     = [search_request example_config (JStr "project = PROJ") (JInt 50) "*all"]
  /\ sent (snd (Dispatcher.handle_call_tool "jira_search_issues"
                  [("jql", JStr "project = PROJ");
                   ("fields", JList [JStr "summary"; JStr "status"]);
                   ("max_results", JInt 5)]
                  (ready_world null_tracker)))
     = [search_request example_config (JStr "project = PROJ") (JInt 5)
          "summary,status"].
Proof.
  assert (Hi : initialized (ready_world null_tracker) example_config)
    by (split; [reflexivity|discriminate]).
  split; [exact Hi|]. split.
  - destruct (search_tool_request (ready_world null_tracker) example_config
                [("jql", JStr "project = PROJ"); ("fields", JList [])]
                (JStr "project = PROJ") Hi eq_refl) as [H _].
    exact (H eq_refl).
  - destruct (search_tool_request (ready_world null_tracker) example_config
                [("jql", JStr "project = PROJ");
                 ("fields", JList [JStr "summary"; JStr "status"]);
                 ("max_results", JInt 5)]
                (JStr "project = PROJ") Hi eq_refl) as [_ H].
    apply (H ["summary"; "status"] eq_refl). discriminate.
Defined.

(** X21: on an initialized client, when the tracker answers the one request
    that the search tool sends (the caller's query, the caller's
    [max_results] or 50, and the [fields] parameter computed from the
    caller's [fields]) with a result, the tool sends that request and
    nothing else and returns one text, the pretty-printed result. *)
Theorem search_tool_answer w cfg arguments jql fields result :
  initialized w cfg ->
  lookup arguments "jql" = Some jql ->
  fields_parameter (dict_get arguments "fields" JNull) = inr fields ->
  let rq := search_request cfg jql (dict_get arguments "max_results" (JInt 50))
              fields in
  tracker w (sent w) rq = inr result ->
  Dispatcher.handle_call_tool "jira_search_issues" arguments w
  = (inr [ {| type := "text"; text := Json.dumps result |} ], with_request rq w).
Proof.
  intros Hi Hj Hf rq Ht.
  unfold Dispatcher.handle_call_tool, Dispatcher.dispatch.
  change (Dispatcher.select_branch "jira_search_issues")
    with (Some Dispatcher.on_search_issues).
  unfold Dispatcher.run_branch, try_except, bind, lift, Client.search_issues,
    bind, lift, dict_getitem.
  rewrite Hj.
  replace (if truthy (dict_get arguments "fields" JNull)
           then rbind (str_join "," (dict_get arguments "fields" JNull))
                  (fun s => inr (JStr s))
           else inr (JStr "*all"))
    with (@inr exn json (JStr fields)).
  - rewrite (make_request_initialized _ _ _ _ _ Hi). cbn zeta.
    change (api_request cfg "GET" "search" _) with rq.
    rewrite Ht. reflexivity.
  - unfold fields_parameter in Hf.
    destruct (truthy (dict_get arguments "fields" JNull)).
    + rewrite Hf. reflexivity.
    + injection Hf as <-. reflexivity.
Qed.

Lemma search_tool_answer_witness :
  initialized (ready_world fields_tracker) example_config
  /\ fst (Dispatcher.handle_call_tool "jira_search_issues"
            [("jql", JStr "project = PROJ");
             ("fields", JList [JStr "summary"; JStr "status"])]
            (ready_world fields_tracker))
     = inr [ {| type := "text"; text := Json.dumps example_search_result |} ].
Proof.
  assert (Hi : initialized (ready_world fields_tracker) example_config)
    by (split; [reflexivity|discriminate]).
  split; [exact Hi|].
  rewrite (search_tool_answer (ready_world fields_tracker) example_config
             [("jql", JStr "project = PROJ");
              ("fields", JList [JStr "summary"; JStr "status"])]
             (JStr "project = PROJ") "summary,status" example_search_result
             Hi eq_refl eq_refl eq_refl).
  reflexivity.
Defined.

(** X13: when the [fields] argument cannot be joined (it is true as a
    condition and is no collection of texts), the search tool answers with
    the [TypeError] of the join and sends no request, whether the client is
    initialized or not. *)
Theorem search_tool_bad_fields w arguments jql e :
  lookup arguments "jql" = Some jql ->
  truthy (dict_get arguments "fields" JNull) = true ->
  str_join "," (dict_get arguments "fields" JNull) = inl e ->
  exn_class e = TypeError
  /\ Dispatcher.handle_call_tool "jira_search_issues" arguments w
     = (inr [ {| type := "text"; text := "Error: " ++ exn_str e |} ],
        with_line ERROR
          ("Error handling tool call jira_search_issues: " ++ exn_str e) w).
Proof.
  intros Hk Ht He.
  assert (Hc : exn_class e = TypeError).
  { clear Hk Ht. revert He. generalize (dict_get arguments "fields" JNull).
    assert (Hitems : forall items n e', join_items "," n items = inl e' ->
                                        exn_class e' = TypeError).
    { induction items as [|x r IH]; intros n e' H; [discriminate|].
      cbn [join_items] in H. destruct x; try (injection H as <-; reflexivity).
      destruct r; [discriminate|].
      destruct (join_items "," (S n) (j :: r)) eqn:E; [|discriminate].
      cbn in H. injection H as <-. eapply IH, E. }
    intros v He. destruct v; cbn [str_join] in He;
      try (injection He as <-; reflexivity); try discriminate;
      eapply Hitems, He. }
  split; [exact Hc|].
  enter_branch. rewrite Hk, Ht, He. cbn [rbind]. rewrite Hc. reflexivity.
Qed.

Lemma search_tool_bad_fields_witness :
  truthy (JList [JStr "summary"; JInt 7]) = true
  /\ Dispatcher.handle_call_tool "jira_search_issues"
       [("jql", JStr "project = PROJ"); ("fields", JList [JStr "summary"; JInt 7])]
       (ready_world null_tracker)
     = (inr [ {| type := "text";
                 text := "Error: sequence item 1: expected str instance, int found"
              |} ],
        with_line ERROR
          "Error handling tool call jira_search_issues: sequence item 1: expected str instance, int found"
          (ready_world null_tracker)).
Proof.
  split; [reflexivity|].
  apply (search_tool_bad_fields (ready_world null_tracker)
           [("jql", JStr "project = PROJ");
            ("fields", JList [JStr "summary"; JInt 7])]
           (JStr "project = PROJ")
           (Exn TypeError "sequence item 1: expected str instance, int found"));
    reflexivity.
Defined.

(** ** The tools that write *)

(** X14: [link_issue_to_epic] is an update: it sends one [PUT] on
    [issue/<key>] whose field document has the one field [parent], the key
    of the epic; it returns nothing when the tracker accepts the request
    and raises the tracker's exception otherwise. *)
Theorem link_issue_to_epic_request w cfg issue_key epic_key :
  initialized w cfg ->
  let rq := api_request cfg "PUT" ("issue/" ++ str issue_key)
              [("json",
                JDict [("fields", JDict [("parent", JDict [("key", epic_key)])])])] in
  let out := Client.link_issue_to_epic issue_key epic_key w in
  sent (snd out) = (sent w ++ [rq])%list
  /\ (forall response, tracker w (sent w) rq = inr response -> fst out = inr tt)
  /\ (forall e, tracker w (sent w) rq = inl e -> fst out = inl e).
Proof.
  intros Hi rq out. subst out.
  unfold Client.link_issue_to_epic, Client.update_issue, bind.
  rewrite (make_request_initialized _ _ _ _ _ Hi). cbn zeta. fold rq.
  destruct (tracker w (sent w) rq) as [e|v].
  - repeat split; try discriminate.
    + destruct (is_ClientError (exn_class e)); reflexivity.
    + intros e' [= ->]. reflexivity.
  - repeat split; try discriminate; reflexivity.
Qed.

Lemma link_issue_to_epic_request_witness :
  initialized (ready_world null_tracker) example_config
  /\ fst (Client.link_issue_to_epic (JStr "PROJ-2") (JStr "PROJ-1")
            (ready_world null_tracker)) = inr tt.
Proof.
  assert (Hi : initialized (ready_world null_tracker) example_config)
    by (split; [reflexivity|discriminate]).
  split; [exact Hi|].
  destruct (link_issue_to_epic_request (ready_world null_tracker) example_config
              (JStr "PROJ-2") (JStr "PROJ-1") Hi) as [_ [H _]].
  exact (H JNull eq_refl).
Defined.

(** X15: for every argument mapping with an [issue_key], the update tool
    sends one [PUT] whose field document has, in the order of the source,
    the field of each optional argument the caller supplied and no other:
    [summary] and [labels] as given, [description] in the rich-text
    wrapper, [assignee] and [priority] as [{"name": ...}]. *)
Theorem update_issue_fields w cfg arguments issue_key :
  initialized w cfg ->
  lookup arguments "issue_key" = Some issue_key ->
  exists fields,
    sent (snd (Dispatcher.handle_call_tool "jira_update_issue" arguments w))
    = (sent w ++ [api_request cfg "PUT" ("issue/" ++ str issue_key)
                    [("json", JDict [("fields", JDict fields)])]])%list
    /\ keys fields
       = flat_map (fun af : string * string =>
                     if contains arguments (fst af) then [snd af] else [])
           update_optional_arguments
    /\ lookup fields "summary" = lookup arguments "summary"
    /\ lookup fields "description"
       = option_map rich_text_document (lookup arguments "description")
    /\ lookup fields "assignee" = option_map named (lookup arguments "assignee")
    /\ lookup fields "priority" = option_map named (lookup arguments "priority")
    /\ lookup fields "labels" = lookup arguments "labels".
Proof.
  intros Hi Hk. exists (update_fields arguments).
  split; [apply (run_update_issue w cfg arguments issue_key Hi Hk)|].
  unfold update_fields, optional_field, contains.
  cbn [flat_map update_optional_arguments fst snd].
  destruct (lookup arguments "summary"), (lookup arguments "description"),
    (lookup arguments "assignee"), (lookup arguments "priority"),
    (lookup arguments "labels"); repeat split; reflexivity.
Qed.

Lemma update_issue_fields_witness :
  initialized (ready_world null_tracker) example_config
  /\ exists fields,
       sent (snd (Dispatcher.handle_call_tool "jira_update_issue"
                    [("assignee", JStr "sam"); ("issue_key", JStr "PROJ-1");
                     ("summary", JStr "New title")]
                    (ready_world null_tracker)))
       = [api_request example_config "PUT" "issue/PROJ-1"
            [("json", JDict [("fields", JDict fields)])]]
       /\ keys fields = ["summary"; "assignee"]
       /\ lookup fields "assignee" = Some (JDict [("name", JStr "sam")]).
Proof.
  assert (Hi : initialized (ready_world null_tracker) example_config)
    by (split; [reflexivity|discriminate]).
  split; [exact Hi|].
  destruct (update_issue_fields (ready_world null_tracker) example_config
              [("assignee", JStr "sam"); ("issue_key", JStr "PROJ-1");
               ("summary", JStr "New title")] (JStr "PROJ-1") Hi eq_refl)
    as [fields [Hs [Hkeys [_ [_ [Ha _]]]]]].
  exists fields. repeat split; assumption.
Defined.

(** X16: in the one [POST] of the create tool, [project] is
    [{"key": project_key}], [issuetype] is [{"name": issue_type}],
    [summary] is the text as given, [assignee] and [priority] are
    [{"name": ...}], [labels] is the list as given and [parent] is
    [{"key": parent_key}], each optional field being there exactly when the
    argument is. *)
Theorem create_issue_values w cfg arguments project_key issue_type summary :
  initialized w cfg ->
  lookup arguments "project_key" = Some project_key ->
  lookup arguments "issue_type" = Some issue_type ->
  lookup arguments "summary" = Some summary ->
  exists fields,
    sent (snd (Dispatcher.handle_call_tool "jira_create_issue" arguments w))
    = (sent w ++ [api_request cfg "POST" "issue"
                    [("json", JDict [("fields", JDict fields)])]])%list
    /\ lookup fields "project" = Some (JDict [("key", project_key)])
    /\ lookup fields "issuetype" = Some (JDict [("name", issue_type)])
    /\ lookup fields "summary" = Some summary
    /\ lookup fields "assignee" = option_map named (lookup arguments "assignee")
    /\ lookup fields "priority" = option_map named (lookup arguments "priority")
    /\ lookup fields "labels" = lookup arguments "labels"
    /\ lookup fields "parent" = option_map keyed (lookup arguments "parent_key").
Proof.
  intros Hi Hp Ht Hs. eexists.
  split; [apply (run_create_issue w cfg arguments _ _ _ Hi Hp Ht Hs)|].
  unfold create_optional_fields, optional_field.
  destruct (lookup arguments "description"), (lookup arguments "assignee"),
    (lookup arguments "priority"), (lookup arguments "labels"),
    (lookup arguments "parent_key"); repeat split; reflexivity.
Qed.

Lemma create_issue_values_witness :
  initialized (ready_world null_tracker) example_config
  /\ exists fields,
       sent (snd (Dispatcher.handle_call_tool "jira_create_issue"
                    [("project_key", JStr "PROJ"); ("issue_type", JStr "Sub-task");
                     ("summary", JStr "Part one"); ("parent_key", JStr "PROJ-1")]
                    (ready_world null_tracker)))
       = [api_request example_config "POST" "issue"
            [("json", JDict [("fields", JDict fields)])]]
       /\ lookup fields "parent" = Some (JDict [("key", JStr "PROJ-1")]).
Proof.
  assert (Hi : initialized (ready_world null_tracker) example_config)
    by (split; [reflexivity|discriminate]).
  split; [exact Hi|].
  destruct (create_issue_values (ready_world null_tracker) example_config
              [("project_key", JStr "PROJ"); ("issue_type", JStr "Sub-task");
               ("summary", JStr "Part one"); ("parent_key", JStr "PROJ-1")]
              (JStr "PROJ") (JStr "Sub-task") (JStr "Part one")
              Hi eq_refl eq_refl eq_refl)
    as [fields [Hs [_ [_ [_ [_ [_ [_ Hparent]]]]]]]].
  exists fields. split; assumption.
Defined.

(** ** Failures of the transport *)

(** X3: on an initialized client [_make_request] sends exactly one request,
    to the base URL joined with [/rest/api/3/] and the endpoint.  A body
    that the tracker returns is the result and nothing is logged.  An
    exception is raised again as it is; one error line is logged before
    that when it is an [aiohttp.ClientError], and none otherwise. *)
Theorem make_request_outcomes w cfg method endpoint kwargs :
  initialized w cfg ->
  let rq := {| req_method := method;
               req_url := urljoin (base_url cfg) ("/rest/api/3/" ++ endpoint);
               req_kwargs := kwargs |} in
  let out := Client._make_request method endpoint kwargs w in
  sent (snd out) = (sent w ++ [rq])%list
  /\ (forall body, tracker w (sent w) rq = inr body ->
                   fst out = inr body /\ logged (snd out) = logged w)
  /\ (forall e, tracker w (sent w) rq = inl e ->
                fst out = inl e
                /\ logged (snd out)
                   = if is_ClientError (exn_class e)
                     then (logged w
                             ++ [(ERROR,
                                  ("JIRA API request failed: " ++ exn_str e)%string)])%list
                     else logged w).
Proof.
  intros Hi rq out. subst out.
  rewrite (make_request_initialized _ _ _ _ _ Hi). cbn zeta.
  change (api_request cfg method endpoint kwargs) with rq.
  destruct (tracker w (sent w) rq) as [e|v].
  - repeat split; try discriminate.
    + destruct (is_ClientError (exn_class e)); reflexivity.
    + now injection H as ->.
    + injection H as ->. destruct (is_ClientError (exn_class e0)); reflexivity.
  - repeat split; try discriminate; try reflexivity. now injection H as ->.
Qed.

Lemma make_request_outcomes_witness :
  initialized (ready_world refusing_tracker) example_config
  /\ logged (snd (Client._make_request "GET" "project" []
                    (ready_world refusing_tracker)))
     = (logged (ready_world refusing_tracker)
          ++ [(ERROR, "JIRA API request failed: 404, message='Not Found'")])%list
  /\ logged (snd (Client._make_request "GET" "project" []
                    (ready_world slow_tracker)))
     = logged (ready_world slow_tracker).
Proof.
  assert (Hi : initialized (ready_world refusing_tracker) example_config)
    by (split; [reflexivity|discriminate]).
  assert (Hi' : initialized (ready_world slow_tracker) example_config)
    by (split; [reflexivity|discriminate]).
  split; [exact Hi|]. split.
  - destruct (make_request_outcomes (ready_world refusing_tracker) example_config
                "GET" "project" [] Hi) as [_ [_ H]].
    destruct (H _ eq_refl) as [_ Hl]. exact Hl.
  - destruct (make_request_outcomes (ready_world slow_tracker) example_config
                "GET" "project" [] Hi') as [_ [_ H]].
    destruct (H _ eq_refl) as [_ Hl]. exact Hl.
Defined.

(** X17: when the tracker refuses the [POST] of the create tool with an
    exception, the tool answers [Error: ] and the message, having sent the
    request once (nothing is retried).  A client error is logged twice, by
    the request primitive and by the dispatcher; any other exception
    once. *)
Theorem create_issue_failure_reported w cfg arguments project_key issue_type
  summary e :
  initialized w cfg ->
  lookup arguments "project_key" = Some project_key ->
  lookup arguments "issue_type" = Some issue_type ->
  lookup arguments "summary" = Some summary ->
  let rq := api_request cfg "POST" "issue"
              [("json",
                JDict [("fields",
                        JDict ([("project", keyed project_key);
                                ("issuetype", named issue_type);
                                ("summary", summary)]
                                 ++ create_optional_fields arguments)%list)])] in
  tracker w (sent w) rq = inl e ->
  is_Exception (exn_class e) = true ->
  let out := Dispatcher.handle_call_tool "jira_create_issue" arguments w in
  fst out = inr [ {| type := "text"; text := "Error: " ++ exn_str e |} ]
  /\ sent (snd out) = (sent w ++ [rq])%list
  /\ logged (snd out)
     = (logged w
          ++ (if is_ClientError (exn_class e)
              then [(ERROR, ("JIRA API request failed: " ++ exn_str e)%string)]
              else [])
          ++ [(ERROR,
               ("Error handling tool call jira_create_issue: " ++ exn_str e)%string)])%list.
Proof.
  intros Hi Hp Ht Hs rq Hr He out. subst out.
  unfold Dispatcher.handle_call_tool, Dispatcher.dispatch.
  change (Dispatcher.select_branch "jira_create_issue")
    with (Some Dispatcher.on_create_issue).
  unfold Dispatcher.run_branch, try_except, bind, lift, Client.create_issue.
  rewrite (build_issue_data_fields _ _ _ _ Hp Ht Hs).
  rewrite (make_request_initialized _ _ _ _ _ Hi). cbn zeta. fold rq.
  rewrite Hr, He.
  destruct (is_ClientError (exn_class e)); cbn;
    repeat split; try reflexivity; now rewrite <- List.app_assoc.
Qed.

Lemma create_issue_failure_reported_witness :
  initialized (ready_world refusing_tracker) example_config
  /\ (let out := Dispatcher.handle_call_tool "jira_create_issue"
                   [("project_key", JStr "PROJ"); ("issue_type", JStr "Task");
                    ("summary", JStr "Write the report")]
                   (ready_world refusing_tracker) in
      fst out
      = inr [ {| type := "text"; text := "Error: 404, message='Not Found'" |} ]
      /\ List.length (sent (snd out)) = 1
      /\ List.length (logged (snd out)) = 3).
Proof.
  assert (Hi : initialized (ready_world refusing_tracker) example_config)
    by (split; [reflexivity|discriminate]).
  split; [exact Hi|].
  destruct (create_issue_failure_reported (ready_world refusing_tracker)
              example_config
              [("project_key", JStr "PROJ"); ("issue_type", JStr "Task");
               ("summary", JStr "Write the report")]
              (JStr "PROJ") (JStr "Task") (JStr "Write the report")
              (Exn ClientResponseError "404, message='Not Found'")
              Hi eq_refl eq_refl eq_refl eq_refl eq_refl) as [Hf [Hs Hl]].
  cbv zeta. rewrite Hf, Hs, Hl. repeat split; reflexivity.
Defined.

(** ** Edges of the transition tool *)

Lemma find_transition_id_named arguments requested transitions :
  lookup arguments "transition_name" = Some (JStr requested) ->
  forallb has_name_and_id transitions = true ->
  Dispatcher.find_transition_id arguments transitions
  = inr (match first_match requested transitions with
         | Some t => identifier t
         | None => JNull
         end).
Proof.
  intros Hn. induction transitions as [|t rest IH]; [reflexivity|].
  cbn [forallb]. intros H. apply andb_prop in H as [Ht Hrest].
  cbn [Dispatcher.find_transition_id first_match find].
  unfold same_name, display_name, identifier, has_name_and_id in *.
  destruct (getitem t "name") as [e|[| | |nm| |]]; try discriminate.
  cbn [rbind lower]. unfold dict_getitem. rewrite Hn. cbn [rbind lower].
  destruct (String.eqb (lower_str nm) (lower_str requested)).
  - destruct (getitem t "id"); [discriminate|reflexivity].
  - apply IH, Hrest.
Qed.

Lemma transition_names_named transitions :
  forallb has_name_and_id transitions = true ->
  Dispatcher.transition_names transitions
  = inr (map JStr (map display_name transitions)).
Proof.
  induction transitions as [|t rest IH]; [reflexivity|].
  cbn [forallb]. intros H. apply andb_prop in H as [Ht Hrest].
  cbn [Dispatcher.transition_names map]. rewrite (IH Hrest).
  unfold has_name_and_id, display_name in *.
  destruct (getitem t "name") as [e|[| | |nm| |]]; try discriminate.
  reflexivity.
Qed.

(** X18: when the first transition with the requested name has an [id]
    that is false as a condition (the empty text, zero, [None]), the
    transition tool answers that the transition was not found, with the
    names of all the transitions, and sends no write. *)
Theorem transition_empty_id w cfg arguments issue_key requested response
  transitions t :
  initialized w cfg ->
  lookup arguments "issue_key" = Some issue_key ->
  lookup arguments "transition_name" = Some (JStr requested) ->
  let listing :=
    api_request cfg "GET" ("issue/" ++ str issue_key ++ "/transitions") [] in
  tracker w (sent w) listing = inr response ->
  get response "transitions" (JList []) = inr (JList transitions) ->
  forallb has_name_and_id transitions = true ->
  first_match requested transitions = Some t ->
  truthy (identifier t) = false ->
  Dispatcher.handle_call_tool "jira_transition_issue" arguments w
  = (inr [ {| type := "text";
              text := "Transition '" ++ requested
                        ++ "' not found. Available transitions: "
                        ++ repr (JList (map JStr (map display_name transitions)))
           |} ],
     with_request listing w).
Proof.
  intros Hi Hk Hn listing Hlist Hget Hall Hfirst Hid.
  unfold Dispatcher.handle_call_tool, Dispatcher.dispatch.
  change (Dispatcher.select_branch "jira_transition_issue")
    with (Some Dispatcher.on_transition_issue).
  unfold Dispatcher.run_branch, try_except, bind, lift,
    Client.get_issue_transitions, bind, lift, dict_getitem.
  rewrite Hk, Hn.
  rewrite (make_request_initialized _ _ _ _ _ Hi). fold listing. cbn zeta.
  rewrite Hlist, Hget. cbn [iter].
  rewrite (find_transition_id_named arguments requested _ Hn Hall), Hfirst, Hid.
  cbn [negb]. rewrite (transition_names_named _ Hall). reflexivity.
Qed.

Lemma transition_empty_id_witness :
  initialized
    (ready_world (fun _ _ =>
       inr (JDict [("transitions",
                    JList [JDict [("id", JStr ""); ("name", JStr "Done")]])])))
    example_config
  /\ fst (Dispatcher.handle_call_tool "jira_transition_issue"
            [("issue_key", JStr "PROJ-1"); ("transition_name", JStr "done")]
            (ready_world (fun _ _ =>
               inr (JDict [("transitions",
                            JList [JDict [("id", JStr ""); ("name", JStr "Done")]])]))))
     = inr [ {| type := "text";
                text := "Transition 'done' not found. Available transitions: ['Done']"
             |} ].
Proof.
  set (remote := fun (_ : list request) (_ : request) =>
         @inr exn json
           (JDict [("transitions",
                    JList [JDict [("id", JStr ""); ("name", JStr "Done")]])])).
  assert (Hi : initialized (ready_world remote) example_config)
    by (split; [reflexivity|discriminate]).
  split; [exact Hi|].
  rewrite (transition_empty_id (ready_world remote) example_config
             [("issue_key", JStr "PROJ-1"); ("transition_name", JStr "done")]
             (JStr "PROJ-1") "done"
             (JDict [("transitions",
                      JList [JDict [("id", JStr ""); ("name", JStr "Done")]])])
             [JDict [("id", JStr ""); ("name", JStr "Done")]]
             (JDict [("id", JStr ""); ("name", JStr "Done")])
             Hi eq_refl eq_refl eq_refl eq_refl eq_refl eq_refl eq_refl).
  reflexivity.
Defined.

(** X7: when [transition_name] is missing and [issue_key] is there, the
    transition tool first lists the transitions (one [GET]) and only then
    answers [Error: 'transition_name']; it sends no write. *)
Theorem missing_transition_name w cfg arguments issue_key response transitions :
  initialized w cfg ->
  lookup arguments "issue_key" = Some issue_key ->
  lookup arguments "transition_name" = None ->
  let listing :=
    api_request cfg "GET" ("issue/" ++ str issue_key ++ "/transitions") [] in
  tracker w (sent w) listing = inr response ->
  get response "transitions" (JList []) = inr (JList transitions) ->
  forallb has_name_and_id transitions = true ->
  Dispatcher.handle_call_tool "jira_transition_issue" arguments w
  = (inr [ {| type := "text"; text := "Error: 'transition_name'" |} ],
     with_line ERROR
       "Error handling tool call jira_transition_issue: 'transition_name'"
       (with_request listing w)).
Proof.
  intros Hi Hk Hn listing Hlist Hget Hall.
  unfold Dispatcher.handle_call_tool, Dispatcher.dispatch.
  change (Dispatcher.select_branch "jira_transition_issue")
    with (Some Dispatcher.on_transition_issue).
  unfold Dispatcher.run_branch, try_except, bind, lift,
    Client.get_issue_transitions, bind, lift, dict_getitem.
  rewrite Hk, Hn.
  rewrite (make_request_initialized _ _ _ _ _ Hi). fold listing. cbn zeta.
  rewrite Hlist, Hget. cbn [iter].
  destruct transitions as [|t rest].
  - reflexivity.
  - cbn [forallb] in Hall. apply andb_prop in Hall as [Ht _].
    cbn [Dispatcher.find_transition_id]. unfold has_name_and_id in Ht.
    destruct (getitem t "name") as [e|[| | |nm| |]]; try discriminate.
    cbn [rbind lower]. unfold dict_getitem. rewrite Hn. reflexivity.
Qed.

Lemma missing_transition_name_witness :
  initialized (ready_world transitions_tracker) example_config
  /\ (let out := Dispatcher.handle_call_tool "jira_transition_issue"
                   [("issue_key", JStr "PROJ-1")]
                   (ready_world transitions_tracker) in
      fst out = inr [ {| type := "text"; text := "Error: 'transition_name'" |} ]
      /\ map req_method (sent (snd out)) = ["GET"]).
Proof.
  assert (Hi : initialized (ready_world transitions_tracker) example_config)
    by (split; [reflexivity|discriminate]).
  split; [exact Hi|]. cbv zeta.
  rewrite (missing_transition_name (ready_world transitions_tracker)
             example_config [("issue_key", JStr "PROJ-1")] (JStr "PROJ-1")
             (JDict [("transitions", JList example_transitions)])
             example_transitions Hi eq_refl eq_refl eq_refl eq_refl eq_refl).
  split; reflexivity.
Defined.

(** ** The entry point *)

Lemma main_after_initialize env serve w :
  all_ascii (username (env_config env) ++ ":" ++ api_token (env_config env)) = true ->
  Entry.main env serve w
  = Entry.try_finally serve Client.close
      (snd (Client.initialize (env_config env) w)).
Proof.
  intros H. unfold Entry.main.
  change (Client.initialize _) with (Client.initialize (env_config env)).
  unfold bind. now rewrite (initialize_ascii (env_config env) w H).
Qed.

Lemma close_session c w s :
  jira_client w = c ->
  session c = Some s ->
  Client.close w
  = (inr tt,
     {| jira_client :=
          {| config := config c;
             session := Some {| headers := headers s;
                                timeout_total := timeout_total s;
                                closed := true |} |};
        tracker := tracker w; sent := sent w; logged := logged w |}).
Proof.
  intros <- Hs. unfold Client.close, bind, get_jira_client, set_jira_client.
  now rewrite Hs.
Qed.

(** X19: when the credentials of the environment are in ASCII and the
    message loop leaves the client alone, [main] ends with the session
    closed, whether the loop returned or raised (any exception, also one
    outside [Exception]); the outcome of [main] is the outcome of the loop,
    and [main] itself sends and logs nothing after the start. *)
Theorem main_releases_session env serve w :
  all_ascii (username (env_config env) ++ ":" ++ api_token (env_config env)) = true ->
  (forall w0, jira_client (snd (serve w0)) = jira_client w0) ->
  let started := snd (Client.initialize (env_config env) w) in
  let out := Entry.main env serve w in
  fst out = fst (serve started)
  /\ (exists s, session (jira_client (snd out)) = Some s /\ closed s = true)
  /\ config (jira_client (snd out)) = Some (env_config env)
  /\ sent (snd out) = sent (snd (serve started))
  /\ logged (snd out) = logged (snd (serve started)).
Proof.
  intros Hascii Hserve started out. subst out.
  rewrite (main_after_initialize env serve w Hascii). fold started.
  unfold Entry.try_finally.
  pose proof (Hserve started) as Hkeep.
  destruct (serve started) as [r2 w2]. cbn [fst snd] in *.
  assert (Hs : exists s, session (jira_client w2) = Some s
                         /\ config (jira_client w2) = Some (env_config env)).
  { rewrite Hkeep. subst started.
    rewrite (initialize_ascii (env_config env) w Hascii).
    eexists. split; reflexivity. }
  destruct Hs as [s [Hs Hc]].
  rewrite (close_session (jira_client w2) w2 s eq_refl Hs). cbn [fst snd].
  repeat split; try reflexivity.
  - eexists. split; reflexivity.
  - exact Hc.
Qed.

Lemma main_releases_session_witness :
  all_ascii (username (env_config empty_env) ++ ":"
               ++ api_token (env_config empty_env)) = true
  /\ (let out := Entry.main empty_env (raise (Exn CancelledError ""))
                   (fresh_world null_tracker) in
      fst out = inl (Exn CancelledError "")
      /\ exists s, session (jira_client (snd out)) = Some s /\ closed s = true).
Proof.
  split; [reflexivity|].
  destruct (main_releases_session empty_env (raise (Exn CancelledError ""))
              (fresh_world null_tracker) eq_refl (fun _ => eq_refl))
    as [Hf [Hs _]].
  split; [exact Hf|exact Hs].
Defined.

(** X20: when [initialize] fails on credentials outside ASCII, [main]
    raises that [UnicodeEncodeError]; the message loop does not run and
    no session is created or closed, the [try] starting only after the
    initialization. *)
Theorem main_failed_start env serve w :
  all_ascii (username (env_config env) ++ ":" ++ api_token (env_config env)) = false ->
  Entry.main env serve w = Client.initialize (env_config env) w
  /\ session (jira_client (snd (Entry.main env serve w))) = session (jira_client w)
  /\ exists e, fst (Entry.main env serve w) = inl e
               /\ exn_class e = UnicodeEncodeError.
Proof.
  intros H.
  assert (Hrun : Client.initialize (env_config env) w
                 = (inl (Exn UnicodeEncodeError
                           "'ascii' codec can't encode character"),
                    {| jira_client :=
                         {| config := Some (env_config env);
                            session := session (jira_client w) |};
                       tracker := tracker w; sent := sent w;
                       logged := logged w |})).
  { unfold Client.initialize, bind, lift, get_jira_client, set_jira_client.
    cbv beta iota zeta. now rewrite (encode_ascii_some _ H). }
  assert (Hmain : Entry.main env serve w = Client.initialize (env_config env) w).
  { unfold Entry.main.
    change (Client.initialize _) with (Client.initialize (env_config env)).
    unfold bind. now rewrite Hrun. }
  rewrite Hmain, Hrun. repeat split. eexists. split; reflexivity.
Qed.

Lemma main_failed_start_witness :
  all_ascii (username (env_config non_ascii_env) ++ ":"
               ++ api_token (env_config non_ascii_env)) = false
  /\ session (jira_client (snd (Entry.main non_ascii_env (ret tt)
                                  (fresh_world null_tracker)))) = None.
Proof.
  split; [reflexivity|].
  destruct (main_failed_start non_ascii_env (ret tt) (fresh_world null_tracker)
              eq_refl) as [_ [H _]].
  exact H.
Defined.
